(** * Lifecycle of an Openstack virtual machine (virtualmachine/openstack/vm.go)

    A shallow embedding of the [VM] descriptor and of its lifecycle methods
    [Provision], [Destroy], [Halt], [GetState], [GetIPs] and [MarshalJSON].

    The methods talk to an Openstack provider through the gophercloud client
    and through a handful of package helpers.  The provider is modelled as a
    gateway: a record of response functions over an abstract provider state.
    Every call that goes through the gateway is recorded, together with its
    outcome, in the trace of the run, the way a recording test double would. *)

From Stdlib Require Import ZArith Lia.
From stdpp Require Import base option list strings gmap.

Set Warnings "-register-all".
Open Scope string_scope.
Open Scope list_scope.

(** ** Go values *)

(** A Go [error]: [None] is [nil], [Some msg] an error whose [Error()] text
    is [msg]. *)
Definition error := option string.

(** What the verb [%s] prints for an [error] operand.  A nil operand is
    printed by package fmt as [%!s(<nil>)]. *)
Definition fmt_s (e : error) : string :=
  match e with
  | Some msg => msg
  | None => "%!s(<nil>)"
  end.

(** [fmt.Errorf] with one and with two [%s] operands after a fixed text. *)
Definition Errorf1 (text : string) (a : error) : error :=
  Some (text +:+ fmt_s a).

Definition Errorf2 (text : string) (a : error) (sep : string) (b : error) : error :=
  Some (text +:+ fmt_s a +:+ sep +:+ fmt_s b).

Arguments Errorf1 : simpl never.
Arguments Errorf2 : simpl never.

(** A call that hands back a value or a non-nil error, for the calls whose
    value the code reads only after it has seen a nil error. *)
Inductive result (A : Type) : Type :=
| Ok (a : A)
| Err (msg : string).
Arguments Ok {A} a.
Arguments Err {A} msg.

(** A Go function either returns or panics (failed type assertion). *)
Inductive outcome (A : Type) : Type :=
| Returns (a : A)
| Panics.
Arguments Returns {A} a.
Arguments Panics {A}.

(** A dynamically typed value, [interface{}], as package encoding/json
    produces it: nil, bool, number, string, [[]interface{}] and
    [map[string]interface{}]. *)
Inductive value : Type :=
| VNil
| VBool (b : bool)
| VNumber (n : Z)
| VString (s : string)
| VSlice (l : list value)
| VMap (m : gmap string value).

(** The four type assertions of this file, in their one-result form. *)
Definition assert_slice (v : value) : outcome (list value) :=
  match v with VSlice l => Returns l | _ => Panics end.

Definition assert_map (v : value) : outcome (gmap string value) :=
  match v with VMap m => Returns m | _ => Panics end.

Definition assert_string (v : value) : outcome string :=
  match v with VString s => Returns s | _ => Panics end.

(** Indexing a Go map: the zero value, a nil interface, when the key is
    missing. *)
Definition index (m : gmap string value) (k : string) : value :=
  default VNil (m !! k).

(** [net.IP] is a byte slice; the nil slice is the empty list. *)
Definition IP := list Byte.byte.

(** ** The data model *)

(** [ImageMetadata]: what kind of image is uploaded for the VM. *)
Module ImageMetadata.
Record t : Type := Build {
  ContainerFormat : string;
  DiskFormat : string;
  MinDisk : Z;
  MinRAM : Z;
  Name : string
}.
End ImageMetadata.

(** [Volume]: an Openstack disk volume.  The Go field [Type] is spelled
    [Type_] here. *)
Module Volume.
Record t : Type := Build {
  ID : string;
  Device : string;
  Name : string;
  Size : Z;
  Type_ : string
}.
End Volume.

(** [floatingips.FloatingIP] of gophercloud. *)
Module FloatingIP.
Record t : Type := Build {
  ID : string;
  FixedIP : string;
  InstanceID : string;
  IP : string;
  Pool : string
}.
End FloatingIP.

(** [ssh.Credentials], without its mutex. *)
Module Credentials.
Record t : Type := Build {
  SSHUser : string;
  SSHPassword : string;
  SSHPrivateKey : string
}.
End Credentials.

(** [gophercloud.ServiceClient]: an authenticated handle on one of the
    provider's services. *)
Module ServiceClient.
Record t : Type := Build {
  Endpoint : string
}.
End ServiceClient.

(** [servers.Server], the fields this file reads. *)
Module Server.
Record t : Type := Build {
  ID : string;
  Status : string;
  Addresses : gmap string value
}.
End Server.

(** [networks.Network], the field this file reads. *)
Module Network.
Record t : Type := Build {
  Name : string
}.
End Network.

(** [servers.CreateOpts]; [Networks] holds the UUID of each
    [servers.Network]. *)
Module CreateOpts.
Record t : Type := Build {
  Name : string;
  FlavorRef : string;
  ImageRef : string;
  Networks : list string;
  SecurityGroups : list string;
  UserData : list Byte.byte;
  AdminPass : string
}.
End CreateOpts.

(** [VM]: the descriptor of one Openstack virtual machine.  The pointer
    fields [FloatingIP] and [computeClient] are options, [None] for nil. *)
Module VM.
Record t : Type := Build {
  IdentityEndpoint : string;
  Username : string;
  Password : string;
  Region : string;
  TenantName : string;
  FlavorName : string;
  ImageID : string;
  ImageMetadata : ImageMetadata.t;
  ImagePath : string;
  Volume : Volume.t;
  InstanceID : string;
  Name : string;
  Networks : list string;
  FloatingIPPool : string;
  FloatingIP : option FloatingIP.t;
  SecurityGroup : string;
  UserData : list Byte.byte;
  AdminPassword : string;
  Credentials : Credentials.t;
  computeClient : option ServiceClient.t
}.

(** The assignments [vm.ImageID = x], [vm.InstanceID = x],
    [vm.FloatingIP = x], [vm.Volume = x] and [vm.computeClient = x]. *)
Definition set_ImageID (x : string) (v : t) : t :=
  Build (IdentityEndpoint v) (Username v) (Password v) (Region v)
    (TenantName v) (FlavorName v) x (ImageMetadata v) (ImagePath v)
    (Volume v) (InstanceID v) (Name v) (Networks v) (FloatingIPPool v)
    (FloatingIP v) (SecurityGroup v) (UserData v) (AdminPassword v)
    (Credentials v) (computeClient v).

Definition set_InstanceID (x : string) (v : t) : t :=
  Build (IdentityEndpoint v) (Username v) (Password v) (Region v)
    (TenantName v) (FlavorName v) (ImageID v) (ImageMetadata v) (ImagePath v)
    (Volume v) x (Name v) (Networks v) (FloatingIPPool v)
    (FloatingIP v) (SecurityGroup v) (UserData v) (AdminPassword v)
    (Credentials v) (computeClient v).

Definition set_FloatingIP (x : option FloatingIP.t) (v : t) : t :=
  Build (IdentityEndpoint v) (Username v) (Password v) (Region v)
    (TenantName v) (FlavorName v) (ImageID v) (ImageMetadata v) (ImagePath v)
    (Volume v) (InstanceID v) (Name v) (Networks v) (FloatingIPPool v)
    x (SecurityGroup v) (UserData v) (AdminPassword v)
    (Credentials v) (computeClient v).

Definition set_Volume (x : Volume.t) (v : t) : t :=
  Build (IdentityEndpoint v) (Username v) (Password v) (Region v)
    (TenantName v) (FlavorName v) (ImageID v) (ImageMetadata v) (ImagePath v)
    x (InstanceID v) (Name v) (Networks v) (FloatingIPPool v)
    (FloatingIP v) (SecurityGroup v) (UserData v) (AdminPassword v)
    (Credentials v) (computeClient v).

Definition set_computeClient (x : option ServiceClient.t) (v : t) : t :=
  Build (IdentityEndpoint v) (Username v) (Password v) (Region v)
    (TenantName v) (FlavorName v) (ImageID v) (ImageMetadata v) (ImagePath v)
    (Volume v) (InstanceID v) (Name v) (Networks v) (FloatingIPPool v)
    (FloatingIP v) (SecurityGroup v) (UserData v) (AdminPassword v)
    (Credentials v) x.
End VM.

(** ** Package constants and errors *)

Definition ErrNoFlavor : error := Some "Requested flavor is not found".
Definition ErrNoInstanceID : error := Some "Missing instance ID".

Definition PublicIP : nat := 0.
Definition PrivateIP : nat := 1.

Definition StateActive : string := "ACTIVE".
Definition StateShutOff : string := "SHUTOFF".
Definition StateError : string := "ERROR".

(** ** The provider, seen through recorded calls *)

(** The calls that leave this file: gophercloud requests and the package
    helpers that wrap such requests.  A helper that receives the descriptor
    is recorded with the identifier it works on. *)
Inductive Call : Type :=
| CallGetComputeClient
| CallGetNetworkClient
| CallGetServer (instanceID : string)
| CallFlavorsIDFromName (name : string)
| CallFindImageIDByName (name : string)
| CallCreateImage
| CallServersCreate (opts : CreateOpts.t)
| CallWaitUntil (instanceID state : string)
| CallWaitUntilSSHReady (instanceID : string)
| CallFloatingIPsCreate (pool : string)
| CallAssociateInstance (serverID ip : string)
| CallDisassociateInstance (serverID ip : string)
| CallFloatingIPsDelete (id : string)
| CallCreateAndAttachVolume (instanceID : string)
| CallDeattachAndDeleteVolume (volumeID : string)
| CallDeleteVM (id : string)
| CallNetworksGet (id : string)
| CallStop (id : string)
| CallStart (id : string).

(** What came back: a non-nil error, a plain success, or a success that
    hands out a provider identifier. *)
Inductive Reply : Type :=
| Failed (msg : string)
| Done
| Gave (id : string).

Record Event : Type := Ev { ev_call : Call; ev_reply : Reply }.

Definition reply_error (e : error) : Reply :=
  match e with
  | Some msg => Failed msg
  | None => Done
  end.

Definition reply_result {A : Type} (f : A -> Reply) (r : result A) : Reply :=
  match r with
  | Ok a => f a
  | Err msg => Failed msg
  end.

(** The provider behind the calls.  [St] is the provider's own state; each
    response may depend on it and change it.  The helpers that take the
    descriptor read it; [createAndAttachVolume] and [deattachAndDeleteVolume]
    also hand back the volume record they leave on it. *)
Record Gateway (St : Type) : Type := {
  gw_getComputeClient : VM.t -> St -> result ServiceClient.t * St;
  gw_getNetworkClient : VM.t -> St -> (option ServiceClient.t * error) * St;
  gw_getServer : VM.t -> St -> (option Server.t * error) * St;
  gw_flavors_IDFromName : ServiceClient.t -> string -> St -> result string * St;
  gw_findImageIDByName : ServiceClient.t -> string -> St -> result string * St;
  gw_createImage : VM.t -> St -> result string * St;
  gw_servers_Create : ServiceClient.t -> CreateOpts.t -> St -> result Server.t * St;
  gw_waitUntil : VM.t -> string -> St -> error * St;
  gw_waitUntilSSHReady : VM.t -> St -> error * St;
  gw_floatingips_Create : ServiceClient.t -> string -> St -> result FloatingIP.t * St;
  gw_floatingips_AssociateInstance : ServiceClient.t -> string -> string -> St -> error * St;
  gw_floatingips_DisassociateInstance : ServiceClient.t -> string -> string -> St -> error * St;
  gw_floatingips_Delete : ServiceClient.t -> string -> St -> error * St;
  gw_createAndAttachVolume : VM.t -> St -> (error * Volume.t) * St;
  gw_deattachAndDeleteVolume : VM.t -> St -> (error * Volume.t) * St;
  gw_deleteVM : ServiceClient.t -> string -> St -> error * St;
  gw_networks_Get : ServiceClient.t -> string -> St -> result Network.t * St;
  gw_ss_Stop : ServiceClient.t -> string -> St -> error * St;
  gw_ss_Start : ServiceClient.t -> string -> St -> error * St
}.
Arguments gw_getComputeClient {St} _ _ _.
Arguments gw_getNetworkClient {St} _ _ _.
Arguments gw_getServer {St} _ _ _.
Arguments gw_flavors_IDFromName {St} _ _ _ _.
Arguments gw_findImageIDByName {St} _ _ _ _.
Arguments gw_createImage {St} _ _ _.
Arguments gw_servers_Create {St} _ _ _ _.
Arguments gw_waitUntil {St} _ _ _ _.
Arguments gw_waitUntilSSHReady {St} _ _ _.
Arguments gw_floatingips_Create {St} _ _ _ _.
Arguments gw_floatingips_AssociateInstance {St} _ _ _ _ _.
Arguments gw_floatingips_DisassociateInstance {St} _ _ _ _ _.
Arguments gw_floatingips_Delete {St} _ _ _ _.
Arguments gw_createAndAttachVolume {St} _ _ _.
Arguments gw_deattachAndDeleteVolume {St} _ _ _.
Arguments gw_deleteVM {St} _ _ _ _.
Arguments gw_networks_Get {St} _ _ _ _.
Arguments gw_ss_Stop {St} _ _ _ _.
Arguments gw_ss_Start {St} _ _ _ _.

(** The state a method runs in: the descriptor behind the receiver pointer
    and the provider. *)
Record World (St : Type) : Type := MkWorld { vm : VM.t; cloud : St }.
Arguments MkWorld {St} _ _.
Arguments vm {St} _.
Arguments cloud {St} _.

(** ** A monad for methods: state passing with a trace of the calls made *)

Definition M (St A : Type) : Type := World St -> A * World St * list Event.

Definition ret {St A : Type} (a : A) : M St A := fun w => (a, w, []).

Definition bind {St A B : Type} (m : M St A) (k : A -> M St B) : M St B :=
  fun w =>
    let '(a, w1, t1) := m w in
    let '(b, w2, t2) := k a w1 in
    (b, w2, t1 ++ t2).

Notation "x <- m ;; k" := (bind m (fun x => k))
  (at level 100, m at next level, right associativity).
Notation "m ;;; k" := (bind m (fun _ => k))
  (at level 100, right associativity).

Definition get_vm {St : Type} : M St VM.t := fun w => (vm w, w, []).

Definition modify_vm {St : Type} (f : VM.t -> VM.t) : M St unit :=
  fun w => (tt, MkWorld (f (vm w)) (cloud w), []).

(** One request to the provider, recorded with its reply. *)
Definition request {St A : Type} (c : Call) (reply : A -> Reply)
    (f : St -> A * St) : M St A :=
  fun w =>
    let '(a, s) := f (cloud w) in
    (a, MkWorld (vm w) s, [Ev c (reply a)]).

(** The three components of a run. *)
Definition returned {St A : Type} (m : M St A) (w : World St) : A := (m w).1.1.
Definition world_after {St A : Type} (m : M St A) (w : World St) : World St := (m w).1.2.
Definition trace {St A : Type} (m : M St A) (w : World St) : list Event := (m w).2.

(** An early [return] inside a block whose enclosing function goes on. *)
Inductive flow (R A : Type) : Type :=
| Return (r : R)
| Continue (a : A).
Arguments Return {R A} r.
Arguments Continue {R A} a.

(** ** The methods of [VM] *)

Section Openstack.

(** The provider the methods run against. *)
Context {St : Type} (gw : Gateway St).

(** The state names and the error of package virtualmachine ([lvm]), whose
    declarations are outside this file. *)
Variables lvm_VMRunning lvm_VMHalted lvm_VMError lvm_VMUnknown : string.
Variable lvm_ErrVMInfoFailed : string.

(** [net.ParseIP], and [json.Marshal] on a decoded document. *)
Variable net_ParseIP : string -> IP.
Variable json_Marshal : value -> list Byte.byte * error.
Variable base64_EncodeToString : list Byte.byte -> string.

(** *** Package helpers *)

(** Modelled from the spec: [getComputeClient] is declared outside vm.go.
    It yields the compute handle of the provider session or an error; the
    comment on the [computeClient] field says the handle is set within
    [Provision], so a handle that was obtained is stored on the
    descriptor. *)
Definition getComputeClient : M St (result ServiceClient.t) :=
  v <- get_vm ;;
  r <- request CallGetComputeClient (reply_result (fun _ => Done))
         (gw_getComputeClient gw v) ;;
  match r with
  | Ok client => modify_vm (VM.set_computeClient (Some client)) ;;; ret r
  | Err _ => ret r
  end.

(** Modelled from the spec: [getNetworkClient] is declared outside vm.go.
    It yields the network handle, which may be nil, and an error. *)
Definition getNetworkClient : M St (option ServiceClient.t * error) :=
  v <- get_vm ;;
  request CallGetNetworkClient (fun r => reply_error r.2)
    (gw_getNetworkClient gw v).

(** Modelled from the spec: [getServer] is declared outside vm.go.  It asks
    the provider for the instance of the descriptor (the gateway's
    InstanceStatus) and yields the server, which may be nil, and an error. *)
Definition getServer : M St (option Server.t * error) :=
  v <- get_vm ;;
  request (CallGetServer (VM.InstanceID v)) (fun r => reply_error r.2)
    (gw_getServer gw v).

(** Modelled from the spec: [findImageIDByName] is declared outside vm.go.
    It searches the images by name; the empty identifier says none matches. *)
Definition findImageIDByName (client : ServiceClient.t) (name : string)
    : M St (result string) :=
  request (CallFindImageIDByName name) (reply_result Gave)
    (gw_findImageIDByName gw client name).

(** Modelled from the spec: [createImage] is declared outside vm.go.  It
    uploads the image of the descriptor and yields its identifier. *)
Definition createImage : M St (result string) :=
  v <- get_vm ;;
  request CallCreateImage (reply_result Gave) (gw_createImage gw v).

(** Modelled from the spec: [waitUntil] is declared outside vm.go.  It polls
    the state of the instance until it is [state], an error state is seen or
    the deadline has passed. *)
Definition waitUntil (state : string) : M St error :=
  v <- get_vm ;;
  request (CallWaitUntil (VM.InstanceID v) state) reply_error
    (gw_waitUntil gw v state).

(** Modelled from the spec: [waitUntilSSHReady] is declared outside vm.go.
    It probes the instance over SSH until it answers or the deadline has
    passed. *)
Definition waitUntilSSHReady : M St error :=
  v <- get_vm ;;
  request (CallWaitUntilSSHReady (VM.InstanceID v)) reply_error
    (gw_waitUntilSSHReady gw v).

(** Modelled from the spec: [createAndAttachVolume] is declared outside
    vm.go.  It creates the volume and attaches it to the instance; the
    volume record of the descriptor is the one the helper leaves. *)
Definition createAndAttachVolume : M St error :=
  v <- get_vm ;;
  r <- request (CallCreateAndAttachVolume (VM.InstanceID v))
         (fun r => reply_error r.1) (gw_createAndAttachVolume gw v) ;;
  modify_vm (VM.set_Volume r.2) ;;;
  ret r.1.

(** Modelled from the spec: [deattachAndDeleteVolume] is declared outside
    vm.go.  It detaches the volume from the instance and deletes it; the
    volume record of the descriptor is the one the helper leaves. *)
Definition deattachAndDeleteVolume : M St error :=
  v <- get_vm ;;
  r <- request (CallDeattachAndDeleteVolume (Volume.ID (VM.Volume v)))
         (fun r => reply_error r.1) (gw_deattachAndDeleteVolume gw v) ;;
  modify_vm (VM.set_Volume r.2) ;;;
  ret r.1.

(** Modelled from the spec: [deleteVM] is declared outside vm.go.  It
    deletes the instance with the given identifier. *)
Definition deleteVM (client : ServiceClient.t) (id : string) : M St error :=
  request (CallDeleteVM id) reply_error (gw_deleteVM gw client id).

(** *** gophercloud requests *)

Definition flavors_IDFromName (client : ServiceClient.t) (name : string)
    : M St (result string) :=
  request (CallFlavorsIDFromName name) (reply_result Gave)
    (gw_flavors_IDFromName gw client name).

Definition servers_Create (client : ServiceClient.t) (opts : CreateOpts.t)
    : M St (result Server.t) :=
  request (CallServersCreate opts) (reply_result (fun s => Gave (Server.ID s)))
    (gw_servers_Create gw client opts).

Definition floatingips_Create (client : ServiceClient.t) (pool : string)
    : M St (result FloatingIP.t) :=
  request (CallFloatingIPsCreate pool)
    (reply_result (fun f => Gave (FloatingIP.ID f)))
    (gw_floatingips_Create gw client pool).

Definition floatingips_AssociateInstance (client : ServiceClient.t)
    (serverID floatingIP : string) : M St error :=
  request (CallAssociateInstance serverID floatingIP) reply_error
    (gw_floatingips_AssociateInstance gw client serverID floatingIP).

Definition floatingips_DisassociateInstance (client : ServiceClient.t)
    (serverID floatingIP : string) : M St error :=
  request (CallDisassociateInstance serverID floatingIP) reply_error
    (gw_floatingips_DisassociateInstance gw client serverID floatingIP).

Definition floatingips_Delete (client : ServiceClient.t) (id : string)
    : M St error :=
  request (CallFloatingIPsDelete id) reply_error
    (gw_floatingips_Delete gw client id).

Definition networks_Get (client : ServiceClient.t) (id : string)
    : M St (result Network.t) :=
  request (CallNetworksGet id) (reply_result (fun _ => Done))
    (gw_networks_Get gw client id).

Definition ss_Stop (client : ServiceClient.t) (id : string) : M St error :=
  request (CallStop id) reply_error (gw_ss_Stop gw client id).

Definition ss_Start (client : ServiceClient.t) (id : string) : M St error :=
  request (CallStart id) reply_error (gw_ss_Start gw client id).

(** *** Destroy *)

(** The loop that folds the collected errors into [returnedErr]: the first
    one as it is, each later one appended after a comma. *)
Fixpoint range_errors (i : nat) (errors : list error) (returnedErr : error)
    : error :=
  match errors with
  | [] => returnedErr
  | err :: rest =>
      if decide (i = 0)
      then range_errors (S i) rest err
      else range_errors (S i) rest (Errorf2 "" returnedErr ", " err)
  end.

(** [Destroy] terminates the VM on Openstack. *)
Definition Destroy : M St error :=
  v <- get_vm ;;
  if decide (VM.InstanceID v = "") then ret ErrNoInstanceID else
  r <- getComputeClient ;;
  match r with
  | Err err =>
      ret (Errorf1 "compute client is not set for the VM, " (Some err))
  | Ok client =>
  (* Delete the floating IP first before destroying the VM *)
  let errors : list error := [] in
  v <- get_vm ;;
  errors <-
    match VM.FloatingIP v with
    | Some fip =>
        err <- floatingips_DisassociateInstance client (VM.InstanceID v)
                 (FloatingIP.IP fip) ;;
        match err with
        | Some _ =>
            ret (errors ++ [Errorf1
              "unable to disassociate floating ip from instance: " err])
        | None =>
            err <- floatingips_Delete client (FloatingIP.ID fip) ;;
            match err with
            | Some _ =>
                ret (errors ++ [Errorf1 "unable to delete floating ip: " err])
            | None => ret errors
            end
        end
    | None => ret errors
    end ;;
  (* De-attach and delete the volume, if there is an attached one *)
  v <- get_vm ;;
  errors <-
    (if decide (Volume.ID (VM.Volume v) = "") then ret errors else
     err <- deattachAndDeleteVolume ;;
     match err with
     | Some _ => ret (errors ++ [err])
     | None => ret errors
     end) ;;
  (* Delete the instance *)
  v <- get_vm ;;
  err <- deleteVM client (VM.InstanceID v) ;;
  errors <-
    match err with
    | Some _ => ret (errors ++ [err])
    | None => ret errors
    end ;;
  (* Return all the errors *)
  let returnedErr : error :=
    if decide (0 < length errors) then range_errors 0 errors None else None in
  modify_vm (VM.set_computeClient None) ;;;
  ret returnedErr
  end.

(** *** Provision *)

(** [Provision] creates a virtual machine on Openstack. *)
Definition Provision : M St error :=
  r <- getComputeClient ;;
  match r with
  | Err err =>
      ret (Errorf1 "compute client is not set for the VM: " (Some err))
  | Ok client =>
  (* Get back an flavor ID string *)
  v <- get_vm ;;
  r <- flavors_IDFromName client (VM.FlavorName v) ;;
  match r with
  | Err _ => ret ErrNoFlavor
  | Ok flavorID =>
  (* Fetch an image ID string *)
  v <- get_vm ;;
  r <-
    (if decide (VM.ImageID v = "") then
       r <- findImageIDByName client (ImageMetadata.Name (VM.ImageMetadata v)) ;;
       match r with
       | Err err => ret (Return (Errorf1 "error on searching image: " (Some err)))
       | Ok imageID =>
           r <-
             (if decide (imageID = "") then
                (* Create an image ID and return the image ID *)
                r <- createImage ;;
                match r with
                | Err err => ret (Return (Some err))
                | Ok imageID => ret (Continue imageID)
                end
              else ret (Continue imageID)) ;;
           match r with
           | Return err => ret (Return err)
           | Continue imageID =>
               modify_vm (VM.set_ImageID imageID) ;;;
               ret (Continue imageID)
           end
       end
     else ret (Continue (VM.ImageID v))) ;;
  match r with
  | Return err => ret err
  | Continue imageID =>
  (* Set the security group for this vm *)
  v <- get_vm ;;
  let securityGroup := VM.SecurityGroup v in
  let securityGroup :=
    if decide (securityGroup = "") then "default" else securityGroup in
  let listOfNetworks := VM.Networks v in
  let createOpts :=
    CreateOpts.Build (VM.Name v) flavorID imageID listOfNetworks
      [securityGroup] (VM.UserData v) (VM.AdminPassword v) in
  r <- servers_Create client createOpts ;;
  match r with
  | Err err => ret (Some err)
  | Ok server =>
  (* Cleanup VM if something goes wrong *)
  let cleanup (err : error) : M St error :=
    errDestroy <- Destroy ;;
    match errDestroy with
    | Some _ => ret (Errorf2 "" err " " errDestroy)
    | None => ret err
    end in
  (* Set the server ID to VM ID *)
  modify_vm (VM.set_InstanceID (Server.ID server)) ;;;
  (* Wait until VM runs *)
  err <- waitUntil lvm_VMRunning ;;
  match err with
  | Some _ => cleanup err
  | None =>
  (* Create and associate an floating IP for this VM *)
  v <- get_vm ;;
  if decide (VM.FloatingIPPool v = "")
  then cleanup (Some "empty floating IP pool") else
  r <- floatingips_Create client (VM.FloatingIPPool v) ;;
  match r with
  | Err err =>
      cleanup (Errorf1 "unable to create a floating ip: " (Some err))
  | Ok fip =>
  err <- floatingips_AssociateInstance client (Server.ID server)
           (FloatingIP.IP fip) ;;
  match err with
  | Some _ =>
      errFipDelete <- floatingips_Delete client (FloatingIP.ID fip) ;;
      let err := Errorf2 "" err " " errFipDelete in
      cleanup (Errorf1 "unable to associate a floating ip: " err)
  | None =>
  modify_vm (VM.set_FloatingIP (Some fip)) ;;;
  (* Wait until the VM gets ready for SSH *)
  err <- waitUntilSSHReady ;;
  match err with
  | Some _ => cleanup err
  | None =>
  (* Create and attach a volume to this VM, if the volume size is > 0 *)
  v <- get_vm ;;
  if decide (0 < Volume.Size (VM.Volume v))%Z then
    err <- createAndAttachVolume ;;
    match err with
    | Some _ => cleanup err
    | None => ret None
    end
  else ret None
  end end end end end end end end.

(** *** GetState, Halt and Start *)

(** [GetState] returns the state of the VM. *)
Definition GetState : M St (string * error) :=
  r <- getServer ;;
  let '(server, err) := r in
  match err with
  | Some _ => ret ("", err)
  | None =>
  match server with
  | None => ret ("", Some lvm_ErrVMInfoFailed)
  | Some server =>
  if decide (Server.Status server = StateActive) then ret (lvm_VMRunning, None)
  else if decide (Server.Status server = StateShutOff) then ret (lvm_VMHalted, None)
  else if decide (Server.Status server = StateError) then ret (lvm_VMError, None)
  else ret (lvm_VMUnknown, None)
  end end.

(** [Halt] shuts down the instance on Openstack. *)
Definition Halt : M St error :=
  v <- get_vm ;;
  if decide (VM.InstanceID v = "") then ret ErrNoInstanceID else
  r <- getComputeClient ;;
  match r with
  | Err err =>
      ret (Errorf1 "compute client is not set for the VM, " (Some err))
  | Ok client =>
  (* Take a look at the initial state of the VM *)
  r <- GetState ;;
  let '(state, err) := r in
  match err with
  | Some _ => ret err
  | None =>
  if decide (state <> lvm_VMRunning)
  then ret (Some "the VM is not active, so cannot be halted") else
  (* Stop the VM (instance) *)
  v <- get_vm ;;
  err <- ss_Stop client (VM.InstanceID v) ;;
  match err with
  | Some _ => ret (Errorf1 "failed to stop the instance: " err)
  | None =>
  (* Wait until VM halts *)
  waitUntil lvm_VMHalted
  end end end.

(** [Start] boots a stopped VM. *)
Definition Start : M St error :=
  v <- get_vm ;;
  if decide (VM.InstanceID v = "") then ret ErrNoInstanceID else
  r <- getComputeClient ;;
  match r with
  | Err err =>
      ret (Errorf1 "compute client is not set for the VM, " (Some err))
  | Ok client =>
  r <- GetState ;;
  let '(state, err) := r in
  match err with
  | Some _ => ret err
  | None =>
  if decide (state <> lvm_VMHalted)
  then ret (Some "VM is not in halted state") else
  (* Start the VM (instance) *)
  v <- get_vm ;;
  err <- ss_Start client (VM.InstanceID v) ;;
  match err with
  | Some _ => ret (Some "failed to start the instance")
  | None =>
  (* Wait until the VM gets ready for SSH *)
  waitUntilSSHReady
  end end end.

(** *** GetIPs *)

(** Sequencing of computations that may panic. *)
Definition outcome_bind {A B : Type} (o : outcome A) (k : A -> outcome B)
    : outcome B :=
  match o with
  | Returns a => k a
  | Panics => Panics
  end.

Notation "x <~ o ;; k" := (outcome_bind o (fun x => k))
  (at level 100, o at next level, right associativity).

(** The inner loop of [GetIPs], over the address blocks of one network. *)
Fixpoint range_addressSlice (addressSlice : list value) (ips : list IP)
    : outcome (list IP) :=
  match addressSlice with
  | [] => Returns ips
  | addressElement :: rest =>
      addressBlock <~ assert_map addressElement ;;
      ipType <~ assert_string (index addressBlock "OS-EXT-IPS:type") ;;
      ip <~ assert_string (index addressBlock "addr") ;;
      let ips :=
        if decide (ipType = "floating")
        then <[PublicIP := net_ParseIP ip]> ips else ips in
      let ips :=
        if decide (ipType = "fixed")
        then <[PrivateIP := net_ParseIP ip]> ips else ips in
      range_addressSlice rest ips
  end.

(** The outer loop of [GetIPs], over the networks of the descriptor.  It
    ends with the [return] of [GetIPs]: a slice, [None] for nil, and an
    error. *)
Fixpoint range_Networks (client : ServiceClient.t) (server : Server.t)
    (networkIDs : list string) (ips : list IP)
    : M St (outcome (option (list IP) * error)) :=
  match networkIDs with
  | [] => ret (Returns (Some ips, None))
  | networkID :: rest =>
      r <- networks_Get client networkID ;;
      match r with
      | Err err => ret (Returns (None, Some err))
      | Ok network =>
          match
            addressSlice <~
              assert_slice (index (Server.Addresses server) (Network.Name network)) ;;
            range_addressSlice addressSlice ips
          with
          | Panics => ret Panics
          | Returns ips => range_Networks client server rest ips
          end
      end
  end.

(** [GetIPs] returns a slice of IP addresses assigned to the VM. *)
Definition GetIPs : M St (outcome (option (list IP) * error)) :=
  r <- getServer ;;
  let '(server, err) := r in
  match server, err with
  | Some server, None =>
      r <- getNetworkClient ;;
      let '(client, err) := r in
      match client, err with
      | Some client, None =>
          let ips : list IP := replicate 2 [] in
          v <- get_vm ;;
          range_Networks client server (VM.Networks v) ips
      | _, _ =>
          (* Probably need to create some network first. *)
          ret (Returns (None, err))
      end
  | _, _ =>
      (* Probably need to call Provision first. *)
      ret (Returns (None, err))
  end.

(** *** MarshalJSON *)

(** A string field with the [omitempty] option. *)
Definition omitempty_string (k s : string) (m : gmap string value)
    : gmap string value :=
  if decide (s = "") then m else <[k := VString s]> m.

(** An int field with the [omitempty] option. *)
Definition omitempty_int (k : string) (n : Z) (m : gmap string value)
    : gmap string value :=
  if decide (n = 0%Z) then m else <[k := VNumber n]> m.

(** What [json.Unmarshal] decodes from the [json.Marshal] of each part of
    [vmAlias].  Field names are the keys unless a tag renames them; the
    identifier of a floating IP carries the tag that leaves it out.  A nil
    pointer and a nil slice are encoded as null, which decodes to the nil
    interface.  The values are those of a descriptor whose texts are valid
    UTF-8 and whose numbers are exact as float64, which the encoder and the
    decoder hand on as they are; an empty slice stands for the nil slice. *)
Definition decoded_ImageMetadata (i : ImageMetadata.t) : value :=
  VMap (omitempty_string "container_format" (ImageMetadata.ContainerFormat i)
       (omitempty_string "disk_format" (ImageMetadata.DiskFormat i)
       (omitempty_int "min_disk" (ImageMetadata.MinDisk i)
       (omitempty_int "min_ram" (ImageMetadata.MinRAM i)
       {[ "name" := VString (ImageMetadata.Name i) ]})))).

Definition decoded_Volume (x : Volume.t) : value :=
  VMap (<["ID" := VString (Volume.ID x)]>
       (<["Device" := VString (Volume.Device x)]>
       (<["Name" := VString (Volume.Name x)]>
       (<["Size" := VNumber (Volume.Size x)]>
       {[ "Type" := VString (Volume.Type_ x) ]})))).

Definition decoded_FloatingIP (p : option FloatingIP.t) : value :=
  match p with
  | None => VNil
  | Some f =>
      VMap (omitempty_string "fixed_ip" (FloatingIP.FixedIP f)
           (<["instance_id" := VString (FloatingIP.InstanceID f)]>
           (<["ip" := VString (FloatingIP.IP f)]>
           {[ "pool" := VString (FloatingIP.Pool f) ]})))
  end.

Definition decoded_strings (l : list string) : value :=
  match l with
  | [] => VNil
  | _ => VSlice (VString <$> l)
  end.

Definition decoded_bytes (l : list Byte.byte) : value :=
  match l with
  | [] => VNil
  | _ => VString (base64_EncodeToString l)
  end.

Definition decoded_Credentials (c : Credentials.t) : value :=
  VMap (<["SSHUser" := VString (Credentials.SSHUser c)]>
       (<["SSHPassword" := VString (Credentials.SSHPassword c)]>
       {[ "SSHPrivateKey" := VString (Credentials.SSHPrivateKey c) ]})).

(** [json.Marshal(alias)] followed by [json.Unmarshal(b, &temp)]; neither
    reports an error on a [vmAlias]. *)
Definition decoded_alias (v : VM.t) : value :=
  VMap (<["IdentityEndpoint" := VString (VM.IdentityEndpoint v)]>
       (<["Username" := VString (VM.Username v)]>
       (<["Password" := VString (VM.Password v)]>
       (<["Region" := VString (VM.Region v)]>
       (<["TenantName" := VString (VM.TenantName v)]>
       (<["FlavorName" := VString (VM.FlavorName v)]>
       (<["ImageID" := VString (VM.ImageID v)]>
       (<["ImageMetadata" := decoded_ImageMetadata (VM.ImageMetadata v)]>
       (<["ImagePath" := VString (VM.ImagePath v)]>
       (<["Volume" := decoded_Volume (VM.Volume v)]>
       (<["InstanceID" := VString (VM.InstanceID v)]>
       (<["Name" := VString (VM.Name v)]>
       (<["Networks" := decoded_strings (VM.Networks v)]>
       (<["FloatingIPPool" := VString (VM.FloatingIPPool v)]>
       (<["FloatingIP" := decoded_FloatingIP (VM.FloatingIP v)]>
       (<["SecurityGroup" := VString (VM.SecurityGroup v)]>
       (<["UserData" := decoded_bytes (VM.UserData v)]>
       (<["AdminPassword" := VString (VM.AdminPassword v)]>
       {[ "Credentials" := decoded_Credentials (VM.Credentials v) ]})))))))))))))))))).

(** [MarshalJSON] serializes the VM object to JSON and puts the identifier
    of the floating IP back in.  [fip] is the map held by [m] under
    "FloatingIP", so the assignment to [fip["id"]] is seen through [m]. *)
Definition MarshalJSON (v : VM.t) : outcome (list Byte.byte * error) :=
  let temp := decoded_alias v in
  m <~ assert_map temp ;;
  fip <~ assert_map (index m "FloatingIP") ;;
  id <~ match VM.FloatingIP v with
        | Some f => Returns (FloatingIP.ID f)
        | None => Panics
        end ;;
  let fip := <["id" := VString id]> fip in
  let m := <["FloatingIP" := VMap fip]> m in
  Returns (json_Marshal (VMap m)).

(** [GetName] returns the name of the virtual machine. *)
Definition GetName (v : VM.t) : string := VM.Name v.

(** *** Suspend and Resume *)

(** The two errors of package virtualmachine that these methods return. *)
Variables lvm_ErrSuspendNotSupported lvm_ErrResumeNotSupported : string.

(** [Suspend] always returns an error. *)
Definition Suspend : M St error := ret (Some lvm_ErrSuspendNotSupported).

(** [Resume] always returns an error. *)
Definition Resume : M St error := ret (Some lvm_ErrResumeNotSupported).

End Openstack.

(** ** A scripted provider for the examples *)

Module Fake.

(** The script: which calls fail and with what text, and what the lookups
    of an instance and of a network answer.  The provider keeps no state. *)
Record Script : Type := {
  fails : Call -> option string;
  server : option Server.t;
  networkClient : option ServiceClient.t;
  networkName : string -> string;
  volume : Volume.t
}.

Definition client : ServiceClient.t := ServiceClient.Build "compute".

Definition answer {A : Type} (sc : Script) (c : Call) (a : A) : result A :=
  match fails sc c with
  | Some msg => Err msg
  | None => Ok a
  end.

Definition gateway (sc : Script) : Gateway unit := {|
  gw_getComputeClient := fun _ s => (answer sc CallGetComputeClient client, s);
  gw_getNetworkClient := fun _ s =>
    (networkClient sc, fails sc CallGetNetworkClient, s);
  gw_getServer := fun v s =>
    (server sc, fails sc (CallGetServer (VM.InstanceID v)), s);
  gw_flavors_IDFromName := fun _ name s =>
    (answer sc (CallFlavorsIDFromName name) "flavor-1", s);
  gw_findImageIDByName := fun _ name s =>
    (answer sc (CallFindImageIDByName name) "image-1", s);
  gw_createImage := fun _ s => (answer sc CallCreateImage "image-2", s);
  gw_servers_Create := fun _ opts s =>
    (answer sc (CallServersCreate opts) (Server.Build "abc-123" "BUILD" ∅), s);
  gw_waitUntil := fun v state s =>
    (fails sc (CallWaitUntil (VM.InstanceID v) state), s);
  gw_waitUntilSSHReady := fun v s =>
    (fails sc (CallWaitUntilSSHReady (VM.InstanceID v)), s);
  gw_floatingips_Create := fun _ pool s =>
    (answer sc (CallFloatingIPsCreate pool)
       (FloatingIP.Build "fip-1" "" "" "203.0.113.7" pool), s);
  gw_floatingips_AssociateInstance := fun _ id ip s =>
    (fails sc (CallAssociateInstance id ip), s);
  gw_floatingips_DisassociateInstance := fun _ id ip s =>
    (fails sc (CallDisassociateInstance id ip), s);
  gw_floatingips_Delete := fun _ id s =>
    (fails sc (CallFloatingIPsDelete id), s);
  gw_createAndAttachVolume := fun v s =>
    (fails sc (CallCreateAndAttachVolume (VM.InstanceID v)), volume sc, s);
  gw_deattachAndDeleteVolume := fun v s =>
    (fails sc (CallDeattachAndDeleteVolume (Volume.ID (VM.Volume v))),
     volume sc, s);
  gw_deleteVM := fun _ id s => (fails sc (CallDeleteVM id), s);
  gw_networks_Get := fun _ id s =>
    (answer sc (CallNetworksGet id) (Network.Build (networkName sc id)), s);
  gw_ss_Stop := fun _ id s => (fails sc (CallStop id), s);
  gw_ss_Start := fun _ id s => (fails sc (CallStart id), s)
|}.

Definition no_volume : Volume.t := Volume.Build "" "" "" 0 "".

(** A descriptor as a caller builds it, before [Provision]. *)
Definition fresh : VM.t :=
  VM.Build "https://keystone.example/v2.0" "user" "secret" "RegionOne" "demo"
    "m1.small" "image-0" (ImageMetadata.Build "bare" "qcow2" 0 0 "cirros")
    "/tmp/cirros.img" no_volume "" "vm-1" ["net-1"] "public" None "" []
    "" (Credentials.Build "root" "" "") None.

(** The descriptor of a provisioned instance with a floating IP. *)
Definition provisioned : VM.t :=
  VM.set_FloatingIP (Some (FloatingIP.Build "fip-1" "" "abc-123" "203.0.113.7" "public"))
    (VM.set_InstanceID "abc-123" fresh).

Definition all_succeed : Call -> option string := fun _ => None.

Definition script (fails : Call -> option string) (server : option Server.t)
    : Script :=
  Build_Script fails server (Some (ServiceClient.Build "network"))
    (fun _ => "private") no_volume.

End Fake.

(** ** Reading traces *)

(** The calls [Destroy] can make. *)
Definition is_teardown_call (c : Call) : bool :=
  match c with
  | CallGetComputeClient
  | CallDisassociateInstance _ _
  | CallFloatingIPsDelete _
  | CallDeattachAndDeleteVolume _
  | CallDeleteVM _ => true
  | _ => false
  end.

Definition is_CallDeleteVM (id : string) (c : Call) : bool :=
  match c with
  | CallDeleteVM id' => bool_decide (id' = id)
  | _ => false
  end.

Definition is_CallFloatingIPsDelete (c : Call) : bool :=
  match c with
  | CallFloatingIPsDelete _ => true
  | _ => false
  end.

Definition is_CallFloatingIPsCreate (c : Call) : bool :=
  match c with
  | CallFloatingIPsCreate _ => true
  | _ => false
  end.

Definition is_CallStop (c : Call) : bool :=
  match c with
  | CallStop _ => true
  | _ => false
  end.

Definition is_CallServersCreate (c : Call) : bool :=
  match c with
  | CallServersCreate _ => true
  | _ => false
  end.

(** How many recorded calls satisfy [p]. *)
Definition count_calls (p : Call -> bool) (t : list Event) : nat :=
  length (List.filter (fun ev => p (ev_call ev)) t).

(** The error a failed stage of [Destroy] adds to its list: the two
    floating IP requests are wrapped, the helpers' errors are kept. *)
Definition reported (ev : Event) : option string :=
  match ev with
  | Ev CallGetComputeClient _ => None
  | Ev (CallDisassociateInstance _ _) (Failed msg) =>
      Some ("unable to disassociate floating ip from instance: " +:+ msg)
  | Ev (CallFloatingIPsDelete _) (Failed msg) =>
      Some ("unable to delete floating ip: " +:+ msg)
  | Ev _ (Failed msg) => Some msg
  | Ev _ _ => None
  end.

(** The texts joined by a comma and a space; no error when there is none. *)
Definition joined (msgs : list string) : error :=
  match msgs with
  | [] => None
  | msg :: rest => Some (fold_left (fun acc m => acc +:+ ", " +:+ m) rest msg)
  end.

(** What [cleanup] in [Provision] returns for a cause and the error of
    [Destroy]. *)
Definition with_teardown (cause : string) (errDestroy : error) : error :=
  match errDestroy with
  | Some d => Some (cause +:+ " " +:+ d)
  | None => Some cause
  end.

(** The compute handle was asked for and not obtained. *)
Definition session_failed (ev : Event) : bool :=
  match ev with
  | Ev CallGetComputeClient (Failed _) => true
  | _ => false
  end.

Definition is_failed (r : Reply) : bool :=
  match r with
  | Failed _ => true
  | _ => false
  end.

(** The text of an error ends with [d]. *)
Definition ends_with (d : string) (e : error) : Prop :=
  exists p, e = Some (p +:+ d).

(** An address block as the provider sends it: a map with a string under
    "OS-EXT-IPS:type" and a string under "addr". *)
Definition well_formed_block (v : value) : bool :=
  match v with
  | VMap m =>
      match index m "OS-EXT-IPS:type", index m "addr" with
      | VString _, VString _ => true
      | _, _ => false
      end
  | _ => false
  end.

(** The addresses of one network: a slice of address blocks. *)
Definition well_formed_addresses (v : value) : bool :=
  match v with
  | VSlice l => forallb well_formed_block l
  | _ => false
  end.

(** [ip] is nil, or it is the parsed address of a block of [server] that is
    flagged [flag]. *)
Definition from_flagged (net_ParseIP : string -> IP) (server : Server.t)
    (flag : string) (ip : IP) : Prop :=
  ip = [] \/
  exists name blocks block addr,
    Server.Addresses server !! name = Some (VSlice blocks) /\
    In (VMap block) blocks /\
    block !! "OS-EXT-IPS:type" = Some (VString flag) /\
    block !! "addr" = Some (VString addr) /\
    ip = net_ParseIP addr.

(** The network lookups of a run of [GetIPs] that goes through its loop
    without a panic: one [networks.Get] for each listed network, in order,
    each on the provider state the one before it left, up to the first one
    that fails. *)
Fixpoint network_lookups {St : Type} (gw : Gateway St)
    (client : ServiceClient.t) (networkIDs : list string) (s : St)
    : list (result Network.t) :=
  match networkIDs with
  | [] => []
  | networkID :: rest =>
      let '(r, s') := gw_networks_Get gw client networkID s in
      match r with
      | Ok _ => r :: network_lookups gw client rest s'
      | Err _ => [r]
      end
  end.

(** The lookup gave a network, and [server] holds a slice of well-formed
    address blocks under the name of that network. *)
Definition addressed_lookup (server : Server.t) (r : result Network.t) : bool :=
  match r with
  | Ok network =>
      well_formed_addresses
        (index (Server.Addresses server) (Network.Name network))
  | Err _ => false
  end.

(** ** Example runs *)

(** The names of package virtualmachine, as the examples spell them. *)
Definition VMRunning : string := "running".
Definition VMHalted : string := "halted".
Definition VMError : string := "error".
Definition VMUnknown : string := "unknown".
Definition ErrVMInfoFailed : string := "error getting information about VM".

(** Providers for the examples: one that answers every call, and one for
    each call that is made to fail. *)
Definition provider_ok : Gateway unit :=
  Fake.gateway (Fake.script Fake.all_succeed None).

Definition provider_no_flavor : Gateway unit :=
  Fake.gateway (Fake.script
    (fun c => match c with
              | CallFlavorsIDFromName _ => Some "Unable to find flavor"
              | _ => None
              end) None).

Definition provider_never_running : Gateway unit :=
  Fake.gateway (Fake.script
    (fun c => match c with
              | CallWaitUntil _ _ => Some "Openstack action timeout"
              | _ => None
              end) None).

Definition provider_no_association : Gateway unit :=
  Fake.gateway (Fake.script
    (fun c => match c with
              | CallAssociateInstance _ _ => Some "association refused"
              | CallDeleteVM _ => Some "instance is locked"
              | _ => None
              end) None).

Definition provider_no_association_only : Gateway unit :=
  Fake.gateway (Fake.script
    (fun c => match c with
              | CallAssociateInstance _ _ => Some "association refused"
              | _ => None
              end) None).

Definition provider_no_disassociation : Gateway unit :=
  Fake.gateway (Fake.script
    (fun c => match c with
              | CallDisassociateInstance _ _ => Some "conflict"
              | _ => None
              end) None).

(** A provider whose instance is shut off. *)
Definition provider_shut_off : Gateway unit :=
  Fake.gateway (Fake.script Fake.all_succeed
    (Some (Server.Build "abc-123" StateShutOff ∅))).

(** A provider whose instance is being built and has no address yet. *)
Definition provider_building : Gateway unit :=
  Fake.gateway (Fake.script Fake.all_succeed
    (Some (Server.Build "abc-123" "BUILD" ∅))).

(** A provider whose instance has a fixed and a floating address on the
    network named "private". *)
Definition addressed : Server.t :=
  Server.Build "abc-123" StateActive
    {[ "private" :=
         VSlice [VMap {[ "OS-EXT-IPS:type" := VString "fixed";
                         "addr" := VString "10.0.0.5" ]};
                 VMap {[ "OS-EXT-IPS:type" := VString "floating";
                         "addr" := VString "203.0.113.7" ]}] ]}.

Definition provider_addressed : Gateway unit :=
  Fake.gateway (Fake.script Fake.all_succeed (Some addressed)).

(** The same instance at a provider that knows no other network than
    "net-1". *)
Definition provider_one_network : Gateway unit :=
  Fake.gateway (Fake.script
    (fun c => match c with
              | CallNetworksGet id =>
                  if decide (id = "net-1") then None
                  else Some "network not found"
              | _ => None
              end) (Some addressed)).

(** A provider that has lost the instance and reports no error, and one
    that has the instance but hands out no network handle. *)
Definition provider_no_server : Gateway unit :=
  Fake.gateway (Fake.script Fake.all_succeed None).

Definition provider_no_network : Gateway unit :=
  Fake.gateway
    (Fake.Build_Script Fake.all_succeed (Some addressed) None
       (fun _ => "private") Fake.no_volume).

(** A stand-in for [net.ParseIP] in the examples: the bytes of the text. *)
Definition parse_bytes (s : string) : IP := String.list_byte_of_string s.

(** Stand-ins for the last [json.Marshal] of [MarshalJSON] in the examples,
    which let a look at the document it is given: one yields the bytes of
    the text under "id" in the "FloatingIP" entry, the other one byte for
    each entry of the document. *)
Definition marshal_identifier (v : value) : list Byte.byte * error :=
  match v with
  | VMap m =>
      match m !! "FloatingIP" with
      | Some (VMap fip) =>
          match fip !! "id" with
          | Some (VString id) => (String.list_byte_of_string id, None)
          | _ => ([], Some "no identifier")
          end
      | _ => ([], Some "no floating IP")
      end
  | _ => ([], Some "no document")
  end.

Definition marshal_entries (v : value) : list Byte.byte * error :=
  match v with
  | VMap m => (replicate (size m) Byte.x00, None)
  | _ => ([], Some "no document")
  end.

(** The names of the fields of [vmAlias]. *)
Definition vmAlias_fields : list string :=
  ["IdentityEndpoint"; "Username"; "Password"; "Region"; "TenantName";
   "FlavorName"; "ImageID"; "ImageMetadata"; "ImagePath"; "Volume";
   "InstanceID"; "Name"; "Networks"; "FloatingIPPool"; "FloatingIP";
   "SecurityGroup"; "UserData"; "AdminPassword"; "Credentials"].

(** The worlds of the examples. *)
Definition fresh_world : World unit := MkWorld Fake.fresh tt.
Definition provisioned_world : World unit := MkWorld Fake.provisioned tt.
Definition provisioned_session : World unit :=
  MkWorld (VM.set_computeClient (Some Fake.client) Fake.provisioned) tt.

(** ** More ways to read a trace *)

(** The calls that remove something at the provider. *)
Definition is_deletion (c : Call) : bool :=
  match c with
  | CallDisassociateInstance _ _
  | CallFloatingIPsDelete _
  | CallDeattachAndDeleteVolume _
  | CallDeleteVM _ => true
  | _ => false
  end.

(** The calls that look an image up or upload one. *)
Definition is_image_call (c : Call) : bool :=
  match c with
  | CallFindImageIDByName _
  | CallCreateImage => true
  | _ => false
  end.

Definition is_CallDeattachAndDeleteVolume (c : Call) : bool :=
  match c with
  | CallDeattachAndDeleteVolume _ => true
  | _ => false
  end.

Definition is_CallStart (c : Call) : bool :=
  match c with
  | CallStart _ => true
  | _ => false
  end.

Definition is_CallWaitUntil (c : Call) : bool :=
  match c with
  | CallWaitUntil _ _ => true
  | _ => false
  end.

Definition is_CallWaitUntilSSHReady (c : Call) : bool :=
  match c with
  | CallWaitUntilSSHReady _ => true
  | _ => false
  end.

Definition is_floating_ip_call (c : Call) : bool :=
  match c with
  | CallFloatingIPsCreate _
  | CallAssociateInstance _ _
  | CallDisassociateInstance _ _
  | CallFloatingIPsDelete _ => true
  | _ => false
  end.

(** The call did not fail. *)
Definition succeeded (ev : Event) : bool := negb (is_failed (ev_reply ev)).

(** The provider acknowledged the creation of an instance. *)
Definition created (ev : Event) : bool :=
  match ev with
  | Ev (CallServersCreate _) (Gave _) => true
  | _ => false
  end.

(** More providers and worlds for the examples. *)
Definition provider_no_session : Gateway unit :=
  Fake.gateway (Fake.script
    (fun c => match c with
              | CallGetComputeClient => Some "Failed to authenticate the client"
              | _ => None
              end) None).

Definition provider_no_image_search : Gateway unit :=
  Fake.gateway (Fake.script
    (fun c => match c with
              | CallFindImageIDByName _ => Some "image service is down"
              | _ => None
              end) None).

Definition provider_no_ssh : Gateway unit :=
  Fake.gateway (Fake.script
    (fun c => match c with
              | CallWaitUntilSSHReady _ => Some "Openstack action timeout"
              | _ => None
              end) None).

Definition provider_stop_refused : Gateway unit :=
  Fake.gateway (Fake.script
    (fun c => match c with
              | CallStop _ => Some "instance is locked"
              | _ => None
              end) (Some (Server.Build "abc-123" StateActive ∅))).

Definition provider_running : Gateway unit :=
  Fake.gateway (Fake.script Fake.all_succeed
    (Some (Server.Build "abc-123" StateActive ∅))).

Definition provider_start_refused : Gateway unit :=
  Fake.gateway (Fake.script
    (fun c => match c with
              | CallStart _ => Some "instance is locked"
              | _ => None
              end) (Some (Server.Build "abc-123" StateShutOff ∅))).

Definition provider_no_network_lookup : Gateway unit :=
  Fake.gateway (Fake.script
    (fun c => match c with
              | CallNetworksGet _ => Some "network not found"
              | _ => None
              end) (Some addressed)).

(** A descriptor without a floating IP pool, and one without an explicit
    image. *)
Definition poolless : VM.t :=
  VM.Build "https://keystone.example/v2.0" "user" "secret" "RegionOne" "demo"
    "m1.small" "image-0" (ImageMetadata.Build "bare" "qcow2" 0 0 "cirros")
    "/tmp/cirros.img" Fake.no_volume "" "vm-1" ["net-1"] "" None "" []
    "" (Credentials.Build "root" "" "") None.

Definition imageless : VM.t := VM.set_ImageID "" Fake.fresh.

Definition networkless : VM.t :=
  VM.Build "https://keystone.example/v2.0" "user" "secret" "RegionOne" "demo"
    "m1.small" "image-0" (ImageMetadata.Build "bare" "qcow2" 0 0 "cirros")
    "/tmp/cirros.img" Fake.no_volume "abc-123" "vm-1" [] "public" None "" []
    "" (Credentials.Build "root" "" "") None.

Definition networkless_world : World unit := MkWorld networkless tt.
Definition poolless_world : World unit := MkWorld poolless tt.
Definition imageless_world : World unit := MkWorld imageless tt.

(** ** Symbolic execution of a run *)

Ltac run_unfold :=
  unfold getComputeClient, getNetworkClient, getServer, findImageIDByName,
    createImage, waitUntil, waitUntilSSHReady, createAndAttachVolume,
    deattachAndDeleteVolume, deleteVM, flavors_IDFromName, servers_Create,
    floatingips_Create, floatingips_AssociateInstance,
    floatingips_DisassociateInstance, floatingips_Delete, networks_Get,
    ss_Stop, ss_Start, bind, ret, get_vm, modify_vm, request,
    returned, world_after, trace in *.

(** A scrutinee that is one call: to the provider or to another method. *)
Ltac is_call x :=
  lazymatch x with
  | gw_getComputeClient _ _ _ => idtac
  | gw_getNetworkClient _ _ _ => idtac
  | gw_getServer _ _ _ => idtac
  | gw_flavors_IDFromName _ _ _ _ => idtac
  | gw_findImageIDByName _ _ _ _ => idtac
  | gw_createImage _ _ _ => idtac
  | gw_servers_Create _ _ _ _ => idtac
  | gw_waitUntil _ _ _ _ => idtac
  | gw_waitUntilSSHReady _ _ _ => idtac
  | gw_floatingips_Create _ _ _ _ => idtac
  | gw_floatingips_AssociateInstance _ _ _ _ _ => idtac
  | gw_floatingips_DisassociateInstance _ _ _ _ _ => idtac
  | gw_floatingips_Delete _ _ _ _ => idtac
  | gw_createAndAttachVolume _ _ _ => idtac
  | gw_deattachAndDeleteVolume _ _ _ => idtac
  | gw_deleteVM _ _ _ _ => idtac
  | gw_networks_Get _ _ _ _ => idtac
  | gw_ss_Stop _ _ _ _ => idtac
  | gw_ss_Start _ _ _ _ => idtac
  | Destroy _ _ => idtac
  | GetState _ _ _ _ _ _ _ => idtac
  end.

(** A scrutinee that is a variable or a field of the descriptor. *)
Ltac is_plain x :=
  first [ is_var x
        | lazymatch x with
          | VM.FloatingIP (vm _) => idtac
          | VM.computeClient (vm _) => idtac
          end ].

Ltac run_step :=
  match goal with
  | H : ?x = Some _ |- context [match ?x with Some _ => _ | None => _ end] =>
      rewrite H; simpl
  | |- context [decide ?P] =>
      let E := fresh "Hdec" in destruct (decide P) as [E | E]; simpl
  | |- context [let '(_, _) := ?x in _] =>
      is_call x;
      let E := fresh "Hcall" in destruct x as [[? ?] ?] eqn:E; simpl
  | |- context [let '(_, _) := ?x in _] =>
      is_call x;
      let E := fresh "Hcall" in destruct x as [? ?] eqn:E; simpl
  | |- context [match ?x with Some _ => _ | None => _ end] =>
      is_plain x;
      let E := fresh "Hopt" in destruct x eqn:E; simpl
  | |- context [match ?x with Ok _ => _ | Err _ => _ end] =>
      is_plain x; destruct x; simpl
  | |- context [let '(_, _) := ?x in _] =>
      is_var x; destruct x; simpl
  end.

Ltac run := run_unfold; simpl; repeat run_step.

(** Name the run [t] so that it is executed once, whatever the number of
    its components the goal mentions. *)
Ltac name_run t :=
  let x := fresh "x" in
  let Hx := fresh "Hx" in
  unfold returned, world_after, trace in *;
  remember t as x eqn:Hx; revert Hx.

Ltac end_run :=
  let Hx := fresh "Hx" in
  intros Hx; rewrite Hx in *; clear Hx; simpl in *;
  rewrite ?app_nil_r in *.

(** Use up a hypothesis that an event is in a trace made of explicit
    events and of the trace of a teardown. *)
Ltac hunt H :=
  repeat
    (lazymatch type of H with
     | In _ (_ :: _) => destruct H as [H | H]; [try discriminate H | ]
     | _ \/ _ => destruct H as [H | H]; [try discriminate H | ]
     | In _ (_ ++ _) => apply in_app_or in H; destruct H as [H | H]
     | In _ [] => destruct H
     | False => destruct H
     end).

(** ** Facts on traces and on joined errors *)

Lemma teardown_trace_In (ev : Event) (t : list Event) :
  Forall (fun ev => is_teardown_call (ev_call ev) = true) t ->
  In ev t -> is_teardown_call (ev_call ev) = true.
Proof.
  intros Ht Hin. rewrite Forall_forall in Ht. apply Ht.
  now apply list_elem_of_In.
Qed.

Lemma append_assoc (a b c : string) : (a +:+ b) +:+ c = a +:+ (b +:+ c).
Proof.
  induction a as [| ch a IH]; [reflexivity |].
  change (String ch ((a +:+ b) +:+ c) = String ch (a +:+ (b +:+ c))).
  now rewrite IH.
Qed.

Lemma ends_with_itself (d : string) : ends_with d (Some d).
Proof. now exists "". Qed.

Lemma ends_with_Errorf2 (d text sep : string) (a : error) :
  ends_with d (Errorf2 text a sep (Some d)).
Proof.
  exists (text +:+ fmt_s a +:+ sep). unfold Errorf2. simpl.
  now rewrite !append_assoc.
Qed.

Lemma ends_with_teardown (d cause : string) (e : error) :
  ends_with d e -> ends_with d (with_teardown cause e).
Proof.
  intros [p ->]. exists (cause +:+ " " +:+ p). simpl.
  now rewrite !append_assoc.
Qed.

Section DestroyFacts.

Context {St : Type} (gw : Gateway St).

Lemma Destroy_without_instance (w : World St) :
  VM.InstanceID (vm w) = "" -> Destroy gw w = (ErrNoInstanceID, w, []).
Proof.
  intros H. unfold Destroy. run; congruence.
Qed.

Lemma Destroy_trace_teardown (w : World St) :
  Forall (fun ev => is_teardown_call (ev_call ev) = true) (trace (Destroy gw) w).
Proof.
  unfold Destroy. run; repeat constructor.
Qed.

Lemma Destroy_keeps_identity (w : World St) :
  VM.InstanceID (vm (world_after (Destroy gw) w)) = VM.InstanceID (vm w) /\
  VM.FloatingIP (vm (world_after (Destroy gw) w)) = VM.FloatingIP (vm w).
Proof.
  name_run (Destroy gw w). unfold Destroy. run; end_run; auto.
Qed.

(** C6: on a descriptor without instance identifier [Destroy] returns
    [ErrNoInstanceID], makes no call and leaves the descriptor and the
    provider as they were; a second [Destroy] right after does the same. *)
Theorem Destroy_missing_identifier (w : World St) :
  VM.InstanceID (vm w) = "" ->
  Destroy gw w = (ErrNoInstanceID, w, []) /\
  (Destroy gw ;;; Destroy gw) w = (ErrNoInstanceID, w, []).
Proof.
  intros H. split.
  - now apply Destroy_without_instance.
  - unfold bind. now rewrite !Destroy_without_instance.
Qed.

(** C5 (amended): when the compute handle is obtained, [Destroy] ends with
    the handle of the descriptor set to nil, whatever the stages reported;
    the instance identifier and the floating IP record stay as they were,
    and so does the volume record when it had no identifier. *)
Theorem Destroy_clears_session_only (w : World St) :
  VM.InstanceID (vm w) <> "" ->
  existsb session_failed (trace (Destroy gw) w) = false ->
  VM.computeClient (vm (world_after (Destroy gw) w)) = None /\
  VM.InstanceID (vm (world_after (Destroy gw) w)) = VM.InstanceID (vm w) /\
  VM.FloatingIP (vm (world_after (Destroy gw) w)) = VM.FloatingIP (vm w) /\
  (Volume.ID (VM.Volume (vm w)) = "" ->
   VM.Volume (vm (world_after (Destroy gw) w)) = VM.Volume (vm w)).
Proof.
  intros Hid. name_run (Destroy gw w). unfold Destroy. run; end_run;
    intros Hs; try congruence; try discriminate Hs; repeat split; auto;
    congruence.
Qed.

(** C3 (amended): with an instance identifier, a floating IP record and the
    compute handle obtained, [Destroy] disassociates the floating IP by its
    address, deletes it by its identifier only when the disassociation
    succeeded, calls the volume helper when there is a volume identifier
    and always ends with the deletion of the instance; what it returns is
    every failure of these stages, in order, joined into one error, and nil
    when none failed. *)
Theorem Destroy_attempts_stages (w : World St) (fip : FloatingIP.t) :
  VM.InstanceID (vm w) <> "" ->
  VM.FloatingIP (vm w) = Some fip ->
  existsb session_failed (trace (Destroy gw) w) = false ->
  exists r_dis r_fip r_vol r_del,
    trace (Destroy gw) w =
      [Ev CallGetComputeClient Done;
       Ev (CallDisassociateInstance (VM.InstanceID (vm w)) (FloatingIP.IP fip)) r_dis]
      ++ (if is_failed r_dis then []
          else [Ev (CallFloatingIPsDelete (FloatingIP.ID fip)) r_fip])
      ++ (if decide (Volume.ID (VM.Volume (vm w)) = "") then []
          else [Ev (CallDeattachAndDeleteVolume (Volume.ID (VM.Volume (vm w)))) r_vol])
      ++ [Ev (CallDeleteVM (VM.InstanceID (vm w))) r_del] /\
    returned (Destroy gw) w = joined (omap reported (trace (Destroy gw) w)).
Proof.
  intros Hid Hfip. name_run (Destroy gw w). unfold Destroy. run; end_run;
    intros Hs; try congruence; try discriminate Hs.
  all: match goal with
       | |- context [Ev (CallDisassociateInstance _ _) ?r] =>
           match goal with
           | |- context [Ev (CallDeleteVM _) ?d] =>
               exists r;
               first [ match goal with
                       | |- context [Ev (CallFloatingIPsDelete _) ?f] => exists f
                       end
                     | exists Done ];
               first [ match goal with
                       | |- context [Ev (CallDeattachAndDeleteVolume _) ?v] => exists v
                       end
                     | exists Done ];
               exists d
           end
       end.
  all: simpl; repeat case_decide; try congruence; split; reflexivity.
Qed.

Lemma Destroy_deletes_once (w : World St) :
  VM.InstanceID (vm w) <> "" ->
  existsb session_failed (trace (Destroy gw) w) = false ->
  count_calls (is_CallDeleteVM (VM.InstanceID (vm w))) (trace (Destroy gw) w) = 1.
Proof.
  intros Hid. name_run (Destroy gw w). unfold Destroy. run; end_run;
    intros Hs; try congruence; try discriminate Hs.
  all: unfold count_calls; simpl; now rewrite bool_decide_eq_true_2.
Qed.

Lemma Destroy_deletes_at_most_once (w : World St) (id : string) :
  count_calls (is_CallDeleteVM id) (trace (Destroy gw) w) <= 1.
Proof.
  name_run (Destroy gw w). unfold Destroy. run; end_run.
  all: unfold count_calls; simpl; try case_bool_decide; simpl; lia.
Qed.

Lemma Destroy_reports_deletion (w : World St) (id d : string) :
  In (Ev (CallDeleteVM id) (Failed d)) (trace (Destroy gw) w) ->
  ends_with d (returned (Destroy gw) w).
Proof.
  name_run (Destroy gw w). unfold Destroy. run; end_run; intros Hin;
    hunt Hin.
  all: injection Hin as _ <-.
  all: first [ apply ends_with_itself | apply ends_with_Errorf2 ].
Qed.

End DestroyFacts.

(** An event that no teardown records cannot be in the trace of one. *)
Ltac teardown_absurd H :=
  lazymatch type of H with
  | In _ ?l =>
      match goal with
      | HD : Destroy ?g ?m = (_, _, l) |- _ =>
          let HT := fresh "HT" in
          pose proof (Destroy_trace_teardown g m) as HT;
          unfold trace in HT; rewrite HD in HT;
          apply (teardown_trace_In _ _ HT) in H; discriminate H
      end
  end.

(** The events of a trace that come before the first one whose call
    satisfies [p]. *)
Ltac events_before p l :=
  lazymatch l with
  | ?x :: ?r =>
      lazymatch eval cbv in (p (ev_call x)) with
      | true => constr:(@nil Event)
      | false => let q := events_before p r in constr:(x :: q)
      end
  end.

Section ProvisionFacts.

Context {St : Type} (gw : Gateway St).
Variable lvm_VMRunning : string.

(** C4: when the flavor name of the descriptor does not resolve,
    [Provision] returns [ErrNoFlavor]; the run is the acquisition of the
    compute handle and the failed resolution and nothing after it, so no
    instance is created. *)
Theorem Provision_unknown_flavor (w : World St) (name msg : string) :
  In (Ev (CallFlavorsIDFromName name) (Failed msg))
    (trace (Provision gw lvm_VMRunning) w) ->
  returned (Provision gw lvm_VMRunning) w = ErrNoFlavor /\
  trace (Provision gw lvm_VMRunning) w =
    [Ev CallGetComputeClient Done;
     Ev (CallFlavorsIDFromName (VM.FlavorName (vm w))) (Failed msg)] /\
  count_calls is_CallServersCreate (trace (Provision gw lvm_VMRunning) w) = 0.
Proof.
  name_run (Provision gw lvm_VMRunning w). unfold Provision.
  run; end_run; intros Hin; hunt Hin; try teardown_absurd Hin.
  injection Hin as _ <-. repeat split.
Qed.

(** C1: when the instance was created and the wait for the running state
    fails with [cause], [Provision] runs [Destroy] on the descriptor that
    holds the identifier of the created instance and returns an error that
    starts with [cause]: [cause] alone when the teardown succeeds, [cause]
    followed by the teardown error when it fails. *)
Theorem Provision_wait_failure (w : World St) (sid cause : string) :
  In (Ev (CallWaitUntil sid lvm_VMRunning) (Failed cause))
    (trace (Provision gw lvm_VMRunning) w) ->
  exists pre opts mid,
    VM.InstanceID (vm mid) = sid /\
    trace (Provision gw lvm_VMRunning) w =
      pre ++ [Ev (CallServersCreate opts) (Gave sid);
              Ev (CallWaitUntil sid lvm_VMRunning) (Failed cause)]
          ++ trace (Destroy gw) mid /\
    world_after (Provision gw lvm_VMRunning) w = world_after (Destroy gw) mid /\
    returned (Provision gw lvm_VMRunning) w =
      with_teardown cause (returned (Destroy gw) mid).
Proof.
  name_run (Provision gw lvm_VMRunning w). unfold Provision.
  run; end_run; intros Hin; hunt Hin; try teardown_absurd Hin.
  all: injection Hin as <- <-.
  all: match goal with
       | HD : Destroy _ ?m = _
         |- ex (fun _ => ex (fun _ => ex (fun _ => _ /\ ?t = _ /\ _))) =>
           let pre := events_before is_CallServersCreate t in
           match t with
           | context [Ev (CallServersCreate ?o) _] =>
               exists pre, o, m; rewrite HD
           end
       end.
  all: repeat split.
Qed.

(** C2 (amended): when the association of the allocated floating IP with
    the created instance fails, [Provision] asks the provider to delete
    that floating IP, then runs [Destroy] on the descriptor of the
    instance, and returns the association failure with the outcome of the
    floating IP deletion, followed by the teardown error when the teardown
    fails: a failed deletion of the instance is the end of that error, a
    successful one adds nothing to it.  No run deletes the instance twice,
    and with a non-empty instance identifier and the compute handle
    obtained each time it is asked for the run deletes it exactly once.
    The floating IP record of the descriptor is what it was before the
    run. *)
Theorem Provision_association_failure (w : World St) (sid ip cause : string) :
  In (Ev (CallAssociateInstance sid ip) (Failed cause))
    (trace (Provision gw lvm_VMRunning) w) ->
  exists pre pool fipID errFipDelete mid,
    trace (Provision gw lvm_VMRunning) w =
      pre ++ [Ev (CallFloatingIPsCreate pool) (Gave fipID);
              Ev (CallAssociateInstance sid ip) (Failed cause);
              Ev (CallFloatingIPsDelete fipID) (reply_error errFipDelete)]
          ++ trace (Destroy gw) mid /\
    VM.InstanceID (vm mid) = sid /\
    world_after (Provision gw lvm_VMRunning) w = world_after (Destroy gw) mid /\
    returned (Provision gw lvm_VMRunning) w =
      with_teardown
        ("unable to associate a floating ip: " +:+ cause +:+ " "
           +:+ fmt_s errFipDelete)
        (returned (Destroy gw) mid) /\
    (forall d, In (Ev (CallDeleteVM sid) (Failed d))
                 (trace (Provision gw lvm_VMRunning) w) ->
               ends_with d (returned (Provision gw lvm_VMRunning) w)) /\
    count_calls (is_CallDeleteVM sid)
      (trace (Provision gw lvm_VMRunning) w) <= 1 /\
    (sid <> "" ->
     existsb session_failed (trace (Provision gw lvm_VMRunning) w) = false ->
     count_calls (is_CallDeleteVM sid)
       (trace (Provision gw lvm_VMRunning) w) = 1) /\
    VM.FloatingIP (vm (world_after (Provision gw lvm_VMRunning) w)) =
      VM.FloatingIP (vm w).
Proof.
  name_run (Provision gw lvm_VMRunning w). unfold Provision.
  run; end_run; intros Hin; hunt Hin; try teardown_absurd Hin.
  all: injection Hin as <- <- <-.
  all: match goal with
       | HD : Destroy _ ?m = (?e, _, _)
         |- ex (fun _ => ex (fun _ => ex (fun _ => ex (fun _ => ex (fun _ =>
              ?t = _ /\ _))))) =>
           let pre := events_before is_CallFloatingIPsCreate t in
           lazymatch t with
           | context [Ev (CallFloatingIPsCreate ?pool) (Gave ?f)
                      :: Ev (CallAssociateInstance _ _) (Failed ?c)
                      :: Ev (CallFloatingIPsDelete _) (reply_error ?efd) :: _] =>
               exists pre, pool, f, efd, m;
               pose proof (Destroy_keeps_identity gw m) as [_ Hkeep];
               pose proof (Destroy_deletes_once gw m) as Honce;
               pose proof (Destroy_deletes_at_most_once gw m) as Hmost;
               pose proof (fun id d => Destroy_reports_deletion gw m id d) as Hrep;
               unfold returned, world_after, trace in Hkeep, Honce, Hmost, Hrep;
               rewrite HD in *; simpl in Hkeep, Honce, Hmost, Hrep;
               repeat split;
               lazymatch goal with
               | |- VM.FloatingIP _ = _ => exact Hkeep
               | |- count_calls _ _ <= 1 =>
                   unfold count_calls in *; simpl; now apply Hmost
               | |- _ <> "" -> _ =>
                   intros Hsid Hs; unfold count_calls in *; simpl;
                   now apply Honce
               | |- _ =>
                   intros d Hd; hunt Hd;
                   apply (ends_with_teardown d
                            ("unable to associate a floating ip: " +:+ c
                               +:+ " " +:+ fmt_s efd) e);
                   exact (Hrep _ d Hd)
               end
           end
       end.
Qed.

End ProvisionFacts.

Section HaltFacts.

Context {St : Type} (gw : Gateway St).
Variables lvm_VMRunning lvm_VMHalted lvm_VMError lvm_VMUnknown : string.
Variable lvm_ErrVMInfoFailed : string.

(** C7 (amended): with an instance identifier and the compute handle
    obtained, when [GetState] reports a state other than running, [Halt]
    returns an error and sends no stop request; the calls it has made by
    then are the acquisition of the compute handle and the lookup of the
    instance that [GetState] is built on. *)
Theorem Halt_not_running (w w1 w2 : World St) (client : ServiceClient.t)
    (state : string) (t1 t2 : list Event) :
  VM.InstanceID (vm w) <> "" ->
  getComputeClient gw w = (Ok client, w1, t1) ->
  GetState gw lvm_VMRunning lvm_VMHalted lvm_VMError lvm_VMUnknown
    lvm_ErrVMInfoFailed w1 = ((state, None), w2, t2) ->
  state <> lvm_VMRunning ->
  Halt gw lvm_VMRunning lvm_VMHalted lvm_VMError lvm_VMUnknown
    lvm_ErrVMInfoFailed w =
    (Some "the VM is not active, so cannot be halted", w2, t1 ++ t2) /\
  t1 ++ t2 =
    [Ev CallGetComputeClient Done;
     Ev (CallGetServer (VM.InstanceID (vm w))) Done] /\
  count_calls is_CallStop (t1 ++ t2) = 0.
Proof.
  intros Hid Hc Hs Hne.
  assert (Ht1 : t1 = [Ev CallGetComputeClient Done] /\
                VM.InstanceID (vm w1) = VM.InstanceID (vm w)).
  { revert Hc. run; intros Hc; inversion Hc; subst; auto. }
  assert (Ht2 : t2 = [Ev (CallGetServer (VM.InstanceID (vm w1))) Done]).
  { revert Hs. unfold GetState. run; intros Hs; inversion Hs; subst; auto. }
  destruct Ht1 as [-> Hid1]. rewrite Hid1 in Ht2. subst t2.
  split; [| split; reflexivity].
  unfold Halt, bind at 1, get_vm.
  destruct (decide (VM.InstanceID (vm w) = "")) as [|_]; [contradiction|].
  unfold ret, bind at 1. rewrite Hc. unfold bind at 1. rewrite Hs.
  destruct (decide (state <> lvm_VMRunning)) as [_|]; [|contradiction].
  reflexivity.
Qed.

End HaltFacts.

Section GetIPsFacts.

Context {St : Type} (gw : Gateway St).
Variable net_ParseIP : string -> IP.

(** C10: [GetIPs] returns a nil slice with a nil error when the lookup of
    the instance yields no server and no error, and when it yields a server
    but the network handle is nil without an error. *)
Theorem GetIPs_nil_without_error (w : World St) :
  (exists s1, gw_getServer gw (vm w) (cloud w) = (None, None, s1)) \/
  (exists server s1 s2,
     gw_getServer gw (vm w) (cloud w) = (Some server, None, s1) /\
     gw_getNetworkClient gw (vm w) s1 = (None, None, s2)) ->
  returned (GetIPs gw net_ParseIP) w = Returns (None, None).
Proof.
  intros [[s1 H1] | (server & s1 & s2 & H1 & H2)];
    unfold returned, GetIPs; run_unfold; simpl; rewrite H1; simpl;
    [reflexivity | now rewrite H2].
Qed.

Lemma index_VString (m : gmap string value) (k s : string) :
  index m k = VString s -> m !! k = Some (VString s).
Proof.
  unfold index. destruct (m !! k) as [v |]; simpl; congruence.
Qed.

Lemma range_addressSlice_flagged (server : Server.t) (name : string)
    (all : list value) :
  Server.Addresses server !! name = Some (VSlice all) ->
  forall blocks pub priv,
    (forall b, In b blocks -> In b all) ->
    forallb well_formed_block blocks = true ->
    from_flagged net_ParseIP server "floating" pub ->
    from_flagged net_ParseIP server "fixed" priv ->
    exists pub' priv',
      range_addressSlice net_ParseIP blocks [pub; priv] = Returns [pub'; priv'] /\
      from_flagged net_ParseIP server "floating" pub' /\
      from_flagged net_ParseIP server "fixed" priv'.
Proof.
  intros Hname blocks. induction blocks as [| b blocks IH];
    intros pub priv Hsub Hwf Hpub Hpriv.
  - now exists pub, priv.
  - simpl in Hwf. apply andb_prop in Hwf as [Hb Hwf].
    destruct b as [| | | | | m]; try discriminate Hb. simpl in Hb.
    destruct (index m "OS-EXT-IPS:type") as [| | | ty | |] eqn:Hty;
      try discriminate Hb.
    destruct (index m "addr") as [| | | addr | |] eqn:Haddr;
      try discriminate Hb.
    assert (Hflag : from_flagged net_ParseIP server ty (net_ParseIP addr)).
    { right. exists name, all, m, addr. repeat split; auto using index_VString.
      apply Hsub. now left. }
    simpl. rewrite Hty, Haddr. simpl.
    destruct (decide (ty = "floating")) as [-> | _];
      destruct (decide _) as [Heq | _]; try discriminate Heq; simpl;
      try (rewrite Heq in Hflag);
      apply IH; auto; intros b Hb'; apply Hsub; now right.
Qed.

(** C8 (amended): when the lookup of the instance yields a server, the
    network handle is obtained, and the lookup of every network the
    descriptor lists succeeds with a name under which the server holds a
    slice of well-formed address blocks, [GetIPs] returns a slice of
    exactly two positions and a nil error; position 0 is nil or the parsed
    address of a block flagged "floating", position 1 is nil or the parsed
    address of a block flagged "fixed". *)
Theorem GetIPs_two_positions (w : World St) (server : Server.t)
    (client : ServiceClient.t) (s1 s2 : St) :
  gw_getServer gw (vm w) (cloud w) = (Some server, None, s1) ->
  gw_getNetworkClient gw (vm w) s1 = (Some client, None, s2) ->
  forallb (addressed_lookup server)
    (network_lookups gw client (VM.Networks (vm w)) s2) = true ->
  exists pub priv,
    returned (GetIPs gw net_ParseIP) w = Returns (Some [pub; priv], None) /\
    from_flagged net_ParseIP server "floating" pub /\
    from_flagged net_ParseIP server "fixed" priv.
Proof.
  intros H1 H2 Hnet.
  assert (Hloop : forall ids pub priv v s,
            forallb (addressed_lookup server)
              (network_lookups gw client ids s) = true ->
            from_flagged net_ParseIP server "floating" pub ->
            from_flagged net_ParseIP server "fixed" priv ->
            exists pub' priv',
              returned (range_Networks gw net_ParseIP client server ids [pub; priv])
                (MkWorld v s) = Returns (Some [pub'; priv'], None) /\
              from_flagged net_ParseIP server "floating" pub' /\
              from_flagged net_ParseIP server "fixed" priv').
  { induction ids as [| id ids IH]; intros pub priv v s Hall Hpub Hpriv.
    - now exists pub, priv.
    - simpl in Hall.
      destruct (gw_networks_Get gw client id s) as [[network | e] s'] eqn:Hget;
        [| discriminate Hall].
      simpl in Hall. apply andb_prop in Hall as [Hwf Hall].
      unfold well_formed_addresses in Hwf.
      destruct (index (Server.Addresses server) (Network.Name network))
        as [| | | | all |] eqn:Hidx; try discriminate Hwf.
      assert (Hname : Server.Addresses server !! Network.Name network
                      = Some (VSlice all)).
      { revert Hidx. unfold index.
        destruct (_ !! _) as [x |]; simpl; congruence. }
      destruct (range_addressSlice_flagged server _ all Hname all pub priv)
        as (pub1 & priv1 & Hrange & Hpub1 & Hpriv1); auto.
      destruct (IH pub1 priv1 v s' Hall Hpub1 Hpriv1)
        as (pub' & priv' & Hrest & Hpub' & Hpriv').
      exists pub', priv'. repeat split; auto.
      revert Hrest. unfold returned. simpl. run_unfold. simpl.
      rewrite Hget. simpl. rewrite Hidx. simpl. rewrite Hrange.
      destruct (range_Networks _ _ _ _ _ _ _) as [[? ?] ?]. auto. }
  destruct (Hloop (VM.Networks (vm w)) [] [] (vm w) s2)
    as (pub & priv & Hret & Hpub & Hpriv); try now left.
  { exact Hnet. }
  exists pub, priv. repeat split; auto.
  revert Hret. unfold returned, GetIPs. run_unfold. simpl.
  rewrite H1. simpl. rewrite H2. simpl.
  destruct (range_Networks _ _ _ _ _ _ _) as [[? ?] ?]. auto.
Qed.

End GetIPsFacts.

Section MarshalJSONFacts.

Variable json_Marshal : value -> list Byte.byte * error.
Variable base64_EncodeToString : list Byte.byte -> string.

Lemma decoded_alias_FloatingIP (v : VM.t) :
  exists m,
    decoded_alias base64_EncodeToString v = VMap m /\
    index m "FloatingIP" = decoded_FloatingIP (VM.FloatingIP v).
Proof.
  eexists. split; [reflexivity |].
  unfold index. now simplify_map_eq.
Qed.

(** C9: on a descriptor whose [FloatingIP] is nil, [MarshalJSON] panics:
    the entry under "FloatingIP" of the decoded document is the nil
    interface, and its type assertion to a map fails. *)
Theorem MarshalJSON_nil_FloatingIP (v : VM.t) :
  VM.FloatingIP v = None ->
  assert_map (decoded_FloatingIP (VM.FloatingIP v)) = Panics /\
  MarshalJSON json_Marshal base64_EncodeToString v = Panics.
Proof.
  intros Hnil. unfold MarshalJSON.
  destruct (decoded_alias_FloatingIP v) as (m & -> & Hidx).
  simpl. rewrite Hidx, Hnil. split; reflexivity.
Qed.

Lemma MarshalJSON_with_FloatingIP (v : VM.t) (f : FloatingIP.t) :
  VM.FloatingIP v = Some f ->
  exists doc,
    MarshalJSON json_Marshal base64_EncodeToString v
    = Returns (json_Marshal (VMap doc)) /\
    exists fip,
      doc !! "FloatingIP" = Some (VMap fip) /\
      fip !! "id" = Some (VString (FloatingIP.ID f)).
Proof.
  intros Hf. unfold MarshalJSON.
  destruct (decoded_alias_FloatingIP v) as (m & -> & Hidx).
  simpl. rewrite Hidx, Hf. simpl.
  eexists. split; [reflexivity |].
  eexists. split; [apply lookup_insert_eq | apply lookup_insert_eq].
Qed.

End MarshalJSONFacts.

(** ** The theorems at work on the example providers *)

Ltac in_trace := vm_compute; repeat (first [left; reflexivity | right]).

(** [Destroy] twice on a descriptor that was never provisioned. *)
Lemma Destroy_missing_identifier_witness :
  VM.InstanceID (vm fresh_world) = "" /\
  Destroy provider_ok fresh_world = (ErrNoInstanceID, fresh_world, []) /\
  (Destroy provider_ok ;;; Destroy provider_ok) fresh_world
  = (ErrNoInstanceID, fresh_world, []).
Proof.
  split; [reflexivity |].
  apply (Destroy_missing_identifier provider_ok fresh_world). reflexivity.
Defined.

(** [Provision] against a provider that does not know the flavor. *)
Lemma Provision_unknown_flavor_witness :
  In (Ev (CallFlavorsIDFromName "m1.small") (Failed "Unable to find flavor"))
    (trace (Provision provider_no_flavor VMRunning) fresh_world) /\
  returned (Provision provider_no_flavor VMRunning) fresh_world = ErrNoFlavor /\
  trace (Provision provider_no_flavor VMRunning) fresh_world =
    [Ev CallGetComputeClient Done;
     Ev (CallFlavorsIDFromName "m1.small") (Failed "Unable to find flavor")] /\
  count_calls is_CallServersCreate
    (trace (Provision provider_no_flavor VMRunning) fresh_world) = 0.
Proof.
  split; [in_trace |].
  apply (Provision_unknown_flavor provider_no_flavor VMRunning fresh_world
           "m1.small" "Unable to find flavor").
  in_trace.
Defined.

(** [Provision] against a provider whose instance never runs. *)
Lemma Provision_wait_failure_witness :
  In (Ev (CallWaitUntil "abc-123" VMRunning) (Failed "Openstack action timeout"))
    (trace (Provision provider_never_running VMRunning) fresh_world) /\
  exists pre opts mid,
    VM.InstanceID (vm mid) = "abc-123" /\
    trace (Provision provider_never_running VMRunning) fresh_world =
      pre ++ [Ev (CallServersCreate opts) (Gave "abc-123");
              Ev (CallWaitUntil "abc-123" VMRunning)
                 (Failed "Openstack action timeout")]
          ++ trace (Destroy provider_never_running) mid /\
    world_after (Provision provider_never_running VMRunning) fresh_world
    = world_after (Destroy provider_never_running) mid /\
    returned (Provision provider_never_running VMRunning) fresh_world =
      with_teardown "Openstack action timeout"
        (returned (Destroy provider_never_running) mid).
Proof.
  split; [in_trace |].
  apply (Provision_wait_failure provider_never_running VMRunning fresh_world
           "abc-123" "Openstack action timeout").
  in_trace.
Defined.

(** [Provision] against a provider that refuses the association and then
    the deletion of the instance. *)
Lemma Provision_association_failure_witness :
  In (Ev (CallAssociateInstance "abc-123" "203.0.113.7")
         (Failed "association refused"))
    (trace (Provision provider_no_association VMRunning) fresh_world) /\
  returned (Provision provider_no_association VMRunning) fresh_world =
    Some ("unable to associate a floating ip: association refused %!s(<nil>)"
            +:+ " instance is locked") /\
  ends_with "instance is locked"
    (returned (Provision provider_no_association VMRunning) fresh_world) /\
  count_calls (is_CallDeleteVM "abc-123")
    (trace (Provision provider_no_association VMRunning) fresh_world) = 1 /\
  VM.FloatingIP
    (vm (world_after (Provision provider_no_association VMRunning) fresh_world))
  = None.
Proof.
  split; [in_trace |].
  destruct (Provision_association_failure provider_no_association VMRunning
              fresh_world "abc-123" "203.0.113.7" "association refused")
    as (pre & pool & fipID & errFipDelete & mid
        & _ & _ & _ & _ & Hd & _ & Hn & Hf).
  - in_trace.
  - split; [reflexivity |]. split; [apply Hd; in_trace |].
    split; [apply Hn; [discriminate | reflexivity] | exact Hf].
Defined.

(** Against C2 as stated: the association is refused, the instance is
    deleted, and the error [Provision] returns has the association failure
    and the outcome of the floating IP deletion and not a word on the
    deletion of the instance. *)
Lemma Provision_silent_teardown_counterexample :
  In (Ev (CallAssociateInstance "abc-123" "203.0.113.7")
         (Failed "association refused"))
    (trace (Provision provider_no_association_only VMRunning) fresh_world) /\
  In (Ev (CallDeleteVM "abc-123") Done)
    (trace (Provision provider_no_association_only VMRunning) fresh_world) /\
  returned (Provision provider_no_association_only VMRunning) fresh_world
  = Some "unable to associate a floating ip: association refused %!s(<nil>)".
Proof.
  split; [in_trace |]. split; [in_trace | reflexivity].
Qed.

(** [Destroy] of a provisioned instance, every stage succeeding. *)
Lemma Destroy_attempts_stages_witness :
  VM.InstanceID (vm provisioned_world) <> "" /\
  VM.FloatingIP (vm provisioned_world)
  = Some (FloatingIP.Build "fip-1" "" "abc-123" "203.0.113.7" "public") /\
  existsb session_failed (trace (Destroy provider_ok) provisioned_world) = false /\
  exists r_dis r_fip r_vol r_del,
    trace (Destroy provider_ok) provisioned_world =
      [Ev CallGetComputeClient Done;
       Ev (CallDisassociateInstance "abc-123" "203.0.113.7") r_dis]
      ++ (if is_failed r_dis then []
          else [Ev (CallFloatingIPsDelete "fip-1") r_fip])
      ++ (if decide (Volume.ID (VM.Volume (vm provisioned_world)) = "") then []
          else [Ev (CallDeattachAndDeleteVolume
                      (Volume.ID (VM.Volume (vm provisioned_world)))) r_vol])
      ++ [Ev (CallDeleteVM "abc-123") r_del] /\
    returned (Destroy provider_ok) provisioned_world
    = joined (omap reported (trace (Destroy provider_ok) provisioned_world)).
Proof.
  split; [discriminate |]. split; [reflexivity |]. split; [reflexivity |].
  apply (Destroy_attempts_stages provider_ok provisioned_world
           (FloatingIP.Build "fip-1" "" "abc-123" "203.0.113.7" "public")).
  - discriminate.
  - reflexivity.
  - reflexivity.
Defined.

(** Against C3 as stated: the disassociation fails and [Destroy] sends no
    request to delete the floating IP. *)
Lemma Destroy_skips_delete_counterexample :
  In (Ev (CallDisassociateInstance "abc-123" "203.0.113.7") (Failed "conflict"))
    (trace (Destroy provider_no_disassociation) provisioned_world) /\
  count_calls is_CallFloatingIPsDelete
    (trace (Destroy provider_no_disassociation) provisioned_world) = 0 /\
  returned (Destroy provider_no_disassociation) provisioned_world
  = Some "unable to disassociate floating ip from instance: conflict".
Proof.
  split; [in_trace |]. split; reflexivity.
Qed.

(** What [Destroy] leaves on the descriptor of a provisioned instance. *)
Lemma Destroy_clears_session_only_witness :
  VM.InstanceID (vm provisioned_world) <> "" /\
  existsb session_failed (trace (Destroy provider_ok) provisioned_world) = false /\
  VM.computeClient (vm (world_after (Destroy provider_ok) provisioned_world))
  = None /\
  VM.InstanceID (vm (world_after (Destroy provider_ok) provisioned_world))
  = VM.InstanceID (vm provisioned_world) /\
  VM.FloatingIP (vm (world_after (Destroy provider_ok) provisioned_world))
  = VM.FloatingIP (vm provisioned_world) /\
  (Volume.ID (VM.Volume (vm provisioned_world)) = "" ->
   VM.Volume (vm (world_after (Destroy provider_ok) provisioned_world))
   = VM.Volume (vm provisioned_world)).
Proof.
  split; [discriminate |]. split; [reflexivity |].
  apply (Destroy_clears_session_only provider_ok provisioned_world).
  - discriminate.
  - reflexivity.
Defined.

(** Against C5 as stated: after a [Destroy] that succeeded the descriptor
    still has its instance identifier and its floating IP record. *)
Lemma Destroy_keeps_identifier_counterexample :
  returned (Destroy provider_ok) provisioned_world = None /\
  VM.InstanceID (vm (world_after (Destroy provider_ok) provisioned_world))
  = "abc-123" /\
  VM.FloatingIP (vm (world_after (Destroy provider_ok) provisioned_world))
  = Some (FloatingIP.Build "fip-1" "" "abc-123" "203.0.113.7" "public") /\
  ~ (VM.InstanceID (vm (world_after (Destroy provider_ok) provisioned_world)) = "" /\
     VM.FloatingIP (vm (world_after (Destroy provider_ok) provisioned_world)) = None).
Proof.
  repeat split. intros [H _]. discriminate H.
Qed.

(** [Halt] of an instance that is shut off. *)
Lemma Halt_not_running_witness :
  VM.InstanceID (vm provisioned_world) <> "" /\
  getComputeClient provider_shut_off provisioned_world
  = (Ok Fake.client, provisioned_session, [Ev CallGetComputeClient Done]) /\
  GetState provider_shut_off VMRunning VMHalted VMError VMUnknown
    ErrVMInfoFailed provisioned_session
  = ((VMHalted, None), provisioned_session, [Ev (CallGetServer "abc-123") Done]) /\
  VMHalted <> VMRunning /\
  Halt provider_shut_off VMRunning VMHalted VMError VMUnknown ErrVMInfoFailed
    provisioned_world
  = (Some "the VM is not active, so cannot be halted", provisioned_session,
     [Ev CallGetComputeClient Done] ++ [Ev (CallGetServer "abc-123") Done]) /\
  [Ev CallGetComputeClient Done] ++ [Ev (CallGetServer "abc-123") Done]
  = [Ev CallGetComputeClient Done;
     Ev (CallGetServer (VM.InstanceID (vm provisioned_world))) Done] /\
  count_calls is_CallStop
    ([Ev CallGetComputeClient Done] ++ [Ev (CallGetServer "abc-123") Done]) = 0.
Proof.
  split; [discriminate |]. split; [reflexivity |]. split; [reflexivity |].
  split; [discriminate |].
  apply (Halt_not_running provider_shut_off VMRunning VMHalted VMError
           VMUnknown ErrVMInfoFailed provisioned_world provisioned_session
           provisioned_session Fake.client VMHalted).
  - discriminate.
  - reflexivity.
  - reflexivity.
  - discriminate.
Defined.

(** Against C7 as stated: [Halt] of an instance that is shut off has called
    the provider twice by the time it returns its error. *)
Lemma Halt_queries_provider_counterexample :
  returned (Halt provider_shut_off VMRunning VMHalted VMError VMUnknown
              ErrVMInfoFailed) provisioned_world
  = Some "the VM is not active, so cannot be halted" /\
  trace (Halt provider_shut_off VMRunning VMHalted VMError VMUnknown
           ErrVMInfoFailed) provisioned_world
  = [Ev CallGetComputeClient Done; Ev (CallGetServer "abc-123") Done] /\
  trace (Halt provider_shut_off VMRunning VMHalted VMError VMUnknown
           ErrVMInfoFailed) provisioned_world <> [].
Proof.
  repeat split. discriminate.
Qed.

(** [GetIPs] of an instance with a fixed and a floating address, at a
    provider that knows the one network the descriptor lists and no
    other. *)
Lemma GetIPs_two_positions_witness :
  gw_getServer provider_one_network (vm provisioned_world)
    (cloud provisioned_world)
  = (Some addressed, None, tt) /\
  gw_getNetworkClient provider_one_network (vm provisioned_world) tt
  = (Some (ServiceClient.Build "network"), None, tt) /\
  forallb (addressed_lookup addressed)
    (network_lookups provider_one_network (ServiceClient.Build "network")
       (VM.Networks (vm provisioned_world)) tt) = true /\
  exists pub priv,
    returned (GetIPs provider_one_network parse_bytes) provisioned_world
    = Returns (Some [pub; priv], None) /\
    from_flagged parse_bytes addressed "floating" pub /\
    from_flagged parse_bytes addressed "fixed" priv.
Proof.
  split; [reflexivity |]. split; [reflexivity |]. split; [reflexivity |].
  apply (GetIPs_two_positions provider_one_network parse_bytes
           provisioned_world addressed (ServiceClient.Build "network") tt tt).
  - reflexivity.
  - reflexivity.
  - reflexivity.
Defined.

(** Against C8 as stated: the lookups of the instance, of the network
    handle and of the network succeed, the instance has no address under
    the name of the network, and [GetIPs] panics. *)
Lemma GetIPs_panics_counterexample :
  trace (GetIPs provider_building parse_bytes) provisioned_world
  = [Ev (CallGetServer "abc-123") Done; Ev CallGetNetworkClient Done;
     Ev (CallNetworksGet "net-1") Done] /\
  returned (GetIPs provider_building parse_bytes) provisioned_world = Panics /\
  ~ exists ips err,
      returned (GetIPs provider_building parse_bytes) provisioned_world
      = Returns (ips, err).
Proof.
  repeat split. intros (ips & err & H). discriminate H.
Qed.

(** [GetIPs] when the provider has no instance, and when it hands out no
    network handle. *)
Lemma GetIPs_nil_without_error_witness :
  ((exists s1, gw_getServer provider_no_server (vm provisioned_world)
                 (cloud provisioned_world) = (None, None, s1)) /\
   returned (GetIPs provider_no_server parse_bytes) provisioned_world
   = Returns (None, None)) /\
  ((exists server s1 s2,
      gw_getServer provider_no_network (vm provisioned_world)
        (cloud provisioned_world) = (Some server, None, s1) /\
      gw_getNetworkClient provider_no_network (vm provisioned_world) s1
      = (None, None, s2)) /\
   returned (GetIPs provider_no_network parse_bytes) provisioned_world
   = Returns (None, None)).
Proof.
  assert (H1 : exists s1, gw_getServer provider_no_server (vm provisioned_world)
                 (cloud provisioned_world) = (None, None, s1)).
  { exists tt. reflexivity. }
  assert (H2 : exists server s1 s2,
      gw_getServer provider_no_network (vm provisioned_world)
        (cloud provisioned_world) = (Some server, None, s1) /\
      gw_getNetworkClient provider_no_network (vm provisioned_world) s1
      = (None, None, s2)).
  { exists addressed, tt, tt. split; reflexivity. }
  split; (split; [assumption |]).
  - apply (GetIPs_nil_without_error provider_no_server parse_bytes
             provisioned_world). left. exact H1.
  - apply (GetIPs_nil_without_error provider_no_network parse_bytes
             provisioned_world). right. exact H2.
Defined.

(** [MarshalJSON] of a descriptor that was never provisioned. *)
Lemma MarshalJSON_nil_FloatingIP_witness :
  VM.FloatingIP Fake.fresh = None /\
  assert_map (decoded_FloatingIP (VM.FloatingIP Fake.fresh)) = Panics /\
  MarshalJSON (fun _ => ([], None)) (fun _ => "") Fake.fresh = Panics.
Proof.
  split; [reflexivity |].
  apply (MarshalJSON_nil_FloatingIP (fun _ => ([], None)) (fun _ => "")
           Fake.fresh).
  reflexivity.
Defined.

(** ** Further properties of the methods *)

(** The part of a list before its last element. *)
Ltac all_but_last l :=
  lazymatch l with
  | [?x] => constr:(@nil Event)
  | ?x :: ?r => let q := all_but_last r in constr:(x :: q)
  end.

Lemma count_calls_teardown (p : Call -> bool) (t : list Event) :
  (forall c, is_teardown_call c = true -> p c = false) ->
  Forall (fun ev => is_teardown_call (ev_call ev) = true) t ->
  count_calls p t = 0.
Proof.
  intros Hp Ht. induction Ht as [| ev t Hev _ IH]; [reflexivity |].
  unfold count_calls in *. simpl. now rewrite (Hp _ Hev).
Qed.

Lemma range_errors_from (msgs : list string) (i : nat) (acc : string) :
  i <> 0 ->
  range_errors i (Some <$> msgs) (Some acc)
  = Some (fold_left (fun a m => a +:+ ", " +:+ m) msgs acc).
Proof.
  revert i acc. induction msgs as [| m msgs IH]; intros i acc Hi;
    [reflexivity |].
  simpl. destruct (decide (i = 0)) as [| _]; [contradiction |].
  change (Errorf2 "" (Some acc) ", " (Some m))
    with (Some (acc +:+ ", " +:+ m)).
  now rewrite IH.
Qed.

(** X1: the loop that closes [Destroy] turns the collected errors into one
    error whose text is their texts in order, separated by a comma and a
    space, and into nil when nothing was collected. *)
Theorem range_errors_joined (msgs : list string) :
  range_errors 0 (Some <$> msgs) None = joined msgs.
Proof.
  destruct msgs as [| m msgs]; [reflexivity |].
  simpl. now rewrite range_errors_from.
Qed.

Section MoreDestroyFacts.

Context {St : Type} (gw : Gateway St).

(** X2: with an instance identifier, [Destroy] returns nil exactly when
    every call it made succeeded. *)
Theorem Destroy_nil_iff_all_succeeded (w : World St) :
  VM.InstanceID (vm w) <> "" ->
  returned (Destroy gw) w = None <->
  forallb succeeded (trace (Destroy gw) w) = true.
Proof.
  intros Hid. name_run (Destroy gw w). unfold Destroy. run; end_run;
    unfold Errorf1, Errorf2 in *; try congruence;
    split; intros H; try reflexivity; discriminate H.
Qed.

(** X3: when the compute handle is not obtained, [Destroy] returns an
    error that carries the cause, makes no other call, so that nothing is
    deleted, and leaves the descriptor as it was. *)
Theorem Destroy_without_session (w : World St) (msg : string) :
  In (Ev CallGetComputeClient (Failed msg)) (trace (Destroy gw) w) ->
  returned (Destroy gw) w
  = Some ("compute client is not set for the VM, " +:+ msg) /\
  trace (Destroy gw) w = [Ev CallGetComputeClient (Failed msg)] /\
  vm (world_after (Destroy gw) w) = vm w.
Proof.
  name_run (Destroy gw w). unfold Destroy. run; end_run; intros Hin;
    hunt Hin.
  injection Hin as <-. repeat split.
Qed.

Lemma Destroy_starts_with_session (w : World St) :
  VM.InstanceID (vm w) <> "" ->
  exists r rest, trace (Destroy gw) w = Ev CallGetComputeClient r :: rest.
Proof.
  intros Hid. name_run (Destroy gw w). unfold Destroy. run; end_run;
    try congruence; eauto.
Qed.

(** X4: [Destroy] keeps the instance identifier, so a second [Destroy] on
    the same descriptor does not stop at the missing identifier: it asks
    for the compute handle again and, when it gets it, asks once more for
    the deletion of the same instance. *)
Theorem Destroy_twice_deletes_again (w : World St) :
  VM.InstanceID (vm w) <> "" ->
  (exists r rest,
     trace (Destroy gw) (world_after (Destroy gw) w)
     = Ev CallGetComputeClient r :: rest) /\
  (existsb session_failed (trace (Destroy gw) (world_after (Destroy gw) w))
   = false ->
   count_calls (is_CallDeleteVM (VM.InstanceID (vm w)))
     (trace (Destroy gw) (world_after (Destroy gw) w)) = 1).
Proof.
  intros Hid.
  destruct (Destroy_keeps_identity gw w) as [Hsame _].
  assert (Hid' : VM.InstanceID (vm (world_after (Destroy gw) w)) <> "")
    by now rewrite Hsame.
  split.
  - now apply Destroy_starts_with_session.
  - intros Hs. rewrite <- Hsame. now apply Destroy_deletes_once.
Qed.

(** X5: with an instance identifier and the compute handle obtained, the
    last call of [Destroy] is the deletion of the instance, whatever the
    earlier stages did; without a floating IP record it makes no floating
    IP call, and without a volume identifier it does not call the volume
    helper. *)
Theorem Destroy_ends_with_instance_deletion (w : World St) :
  VM.InstanceID (vm w) <> "" ->
  existsb session_failed (trace (Destroy gw) w) = false ->
  exists pre r,
    trace (Destroy gw) w = pre ++ [Ev (CallDeleteVM (VM.InstanceID (vm w))) r] /\
    count_calls (is_CallDeleteVM (VM.InstanceID (vm w))) pre = 0 /\
    (VM.FloatingIP (vm w) = None -> count_calls is_floating_ip_call pre = 0) /\
    (Volume.ID (VM.Volume (vm w)) = "" ->
     count_calls is_CallDeattachAndDeleteVolume pre = 0).
Proof.
  intros Hid. name_run (Destroy gw w). unfold Destroy. run; end_run;
    intros Hs; try congruence; try discriminate Hs.
  all: match goal with
       | |- ex (fun _ => ex (fun _ => ?t = _ /\ _)) =>
           let pre := all_but_last t in
           lazymatch t with
           | context [Ev (CallDeleteVM _) ?r] => exists pre, r
           end
       end.
  all: repeat split; intros; congruence.
Qed.

End MoreDestroyFacts.

Section StateFacts.

Context {St : Type} (gw : Gateway St).
Variables lvm_VMRunning lvm_VMHalted lvm_VMError lvm_VMUnknown : string.
Variable lvm_ErrVMInfoFailed : string.

(** X6: [GetState] makes one call, the lookup of the instance, and leaves
    the descriptor as it was; it returns either an error with the empty
    state or no error with one of the four state names. *)
Theorem GetState_outcomes (w : World St) :
  (exists r, trace (GetState gw lvm_VMRunning lvm_VMHalted lvm_VMError
                      lvm_VMUnknown lvm_ErrVMInfoFailed) w
             = [Ev (CallGetServer (VM.InstanceID (vm w))) r]) /\
  vm (world_after (GetState gw lvm_VMRunning lvm_VMHalted lvm_VMError
                     lvm_VMUnknown lvm_ErrVMInfoFailed) w) = vm w /\
  ((exists msg,
      returned (GetState gw lvm_VMRunning lvm_VMHalted lvm_VMError
                  lvm_VMUnknown lvm_ErrVMInfoFailed) w = ("", Some msg)) \/
   (exists state,
      returned (GetState gw lvm_VMRunning lvm_VMHalted lvm_VMError
                  lvm_VMUnknown lvm_ErrVMInfoFailed) w = (state, None) /\
      In state [lvm_VMRunning; lvm_VMHalted; lvm_VMError; lvm_VMUnknown])).
Proof.
  name_run (GetState gw lvm_VMRunning lvm_VMHalted lvm_VMError lvm_VMUnknown
              lvm_ErrVMInfoFailed w).
  unfold GetState. run; end_run.
  all: split; [eauto | split; [reflexivity |]].
  all: first [ left; eexists; reflexivity
             | right; eexists; split; [reflexivity | simpl; tauto] ].
Qed.

(** X7: on a descriptor without instance identifier [Halt] and [Start]
    return [ErrNoInstanceID] before any call and change nothing. *)
Theorem Halt_Start_missing_identifier (w : World St) :
  VM.InstanceID (vm w) = "" ->
  Halt gw lvm_VMRunning lvm_VMHalted lvm_VMError lvm_VMUnknown
    lvm_ErrVMInfoFailed w = (ErrNoInstanceID, w, []) /\
  Start gw lvm_VMRunning lvm_VMHalted lvm_VMError lvm_VMUnknown
    lvm_ErrVMInfoFailed w = (ErrNoInstanceID, w, []).
Proof.
  intros Hid. unfold Halt, Start, bind, get_vm, ret.
  destruct (decide (VM.InstanceID (vm w) = "")); [split; reflexivity |].
  contradiction.
Qed.

(** X8: when the provider refuses the stop request, [Halt] returns an
    error that carries the cause and does not wait for the halted state. *)
Theorem Halt_stop_refused (w : World St) (id cause : string) :
  In (Ev (CallStop id) (Failed cause))
    (trace (Halt gw lvm_VMRunning lvm_VMHalted lvm_VMError lvm_VMUnknown
              lvm_ErrVMInfoFailed) w) ->
  id = VM.InstanceID (vm w) /\
  returned (Halt gw lvm_VMRunning lvm_VMHalted lvm_VMError lvm_VMUnknown
              lvm_ErrVMInfoFailed) w
  = Some ("failed to stop the instance: " +:+ cause) /\
  count_calls is_CallWaitUntil
    (trace (Halt gw lvm_VMRunning lvm_VMHalted lvm_VMError lvm_VMUnknown
              lvm_ErrVMInfoFailed) w) = 0.
Proof.
  name_run (Halt gw lvm_VMRunning lvm_VMHalted lvm_VMError lvm_VMUnknown
              lvm_ErrVMInfoFailed w).
  unfold Halt, GetState. run; end_run; intros Hin; hunt Hin.
  all: injection Hin as <- <-; repeat split.
Qed.

(** X9: [Halt] returns nil only at the end of one path: the compute handle
    obtained, the instance looked up, the stop request accepted and the
    wait for the halted state passed, in this order and with nothing
    else. *)
Theorem Halt_nil_path (w : World St) :
  returned (Halt gw lvm_VMRunning lvm_VMHalted lvm_VMError lvm_VMUnknown
              lvm_ErrVMInfoFailed) w = None ->
  trace (Halt gw lvm_VMRunning lvm_VMHalted lvm_VMError lvm_VMUnknown
           lvm_ErrVMInfoFailed) w
  = [Ev CallGetComputeClient Done;
     Ev (CallGetServer (VM.InstanceID (vm w))) Done;
     Ev (CallStop (VM.InstanceID (vm w))) Done;
     Ev (CallWaitUntil (VM.InstanceID (vm w)) lvm_VMHalted) Done].
Proof.
  name_run (Halt gw lvm_VMRunning lvm_VMHalted lvm_VMError lvm_VMUnknown
              lvm_ErrVMInfoFailed w).
  unfold Halt, GetState. run; end_run; unfold Errorf1 in *; intros Hnil;
    try discriminate Hnil; try congruence; subst; reflexivity.
Qed.

(** X10: with an instance identifier and the compute handle obtained, when
    [GetState] reports a state other than halted, [Start] returns an error
    and sends no start request. *)
Theorem Start_not_halted (w w1 w2 : World St) (client : ServiceClient.t)
    (state : string) (t1 t2 : list Event) :
  VM.InstanceID (vm w) <> "" ->
  getComputeClient gw w = (Ok client, w1, t1) ->
  GetState gw lvm_VMRunning lvm_VMHalted lvm_VMError lvm_VMUnknown
    lvm_ErrVMInfoFailed w1 = ((state, None), w2, t2) ->
  state <> lvm_VMHalted ->
  Start gw lvm_VMRunning lvm_VMHalted lvm_VMError lvm_VMUnknown
    lvm_ErrVMInfoFailed w
  = (Some "VM is not in halted state", w2, t1 ++ t2) /\
  count_calls is_CallStart (t1 ++ t2) = 0.
Proof.
  intros Hid Hc Hs Hne.
  assert (Ht1 : t1 = [Ev CallGetComputeClient Done]).
  { revert Hc. run; intros Hc; inversion Hc; subst; auto. }
  assert (Ht2 : exists id, t2 = [Ev (CallGetServer id) Done]).
  { revert Hs. unfold GetState. run; intros Hs; inversion Hs; subst; eauto. }
  destruct Ht2 as [id ->]. subst t1.
  split; [| reflexivity].
  unfold Start, bind at 1, get_vm.
  destruct (decide (VM.InstanceID (vm w) = "")) as [|_]; [contradiction|].
  unfold ret, bind at 1. rewrite Hc. unfold bind at 1. rewrite Hs.
  destruct (decide (state <> lvm_VMHalted)) as [_|]; [|contradiction].
  reflexivity.
Qed.

(** X11: when the provider refuses the start request, [Start] returns the
    same fixed error whatever the cause was, and does not probe the
    instance over SSH. *)
Theorem Start_refused (w : World St) (id cause : string) :
  In (Ev (CallStart id) (Failed cause))
    (trace (Start gw lvm_VMRunning lvm_VMHalted lvm_VMError lvm_VMUnknown
              lvm_ErrVMInfoFailed) w) ->
  id = VM.InstanceID (vm w) /\
  returned (Start gw lvm_VMRunning lvm_VMHalted lvm_VMError lvm_VMUnknown
              lvm_ErrVMInfoFailed) w
  = Some "failed to start the instance" /\
  count_calls is_CallWaitUntilSSHReady
    (trace (Start gw lvm_VMRunning lvm_VMHalted lvm_VMError lvm_VMUnknown
              lvm_ErrVMInfoFailed) w) = 0.
Proof.
  name_run (Start gw lvm_VMRunning lvm_VMHalted lvm_VMError lvm_VMUnknown
              lvm_ErrVMInfoFailed w).
  unfold Start, GetState. run; end_run; intros Hin; hunt Hin.
  all: injection Hin as <- _; repeat split.
Qed.

(** X12: [Start] returns nil only at the end of one path: the compute
    handle obtained, the instance looked up, the start request accepted
    and the SSH probe passed; it never waits for the running state. *)
Theorem Start_nil_path (w : World St) :
  returned (Start gw lvm_VMRunning lvm_VMHalted lvm_VMError lvm_VMUnknown
              lvm_ErrVMInfoFailed) w = None ->
  trace (Start gw lvm_VMRunning lvm_VMHalted lvm_VMError lvm_VMUnknown
           lvm_ErrVMInfoFailed) w
  = [Ev CallGetComputeClient Done;
     Ev (CallGetServer (VM.InstanceID (vm w))) Done;
     Ev (CallStart (VM.InstanceID (vm w))) Done;
     Ev (CallWaitUntilSSHReady (VM.InstanceID (vm w))) Done].
Proof.
  name_run (Start gw lvm_VMRunning lvm_VMHalted lvm_VMError lvm_VMUnknown
              lvm_ErrVMInfoFailed w).
  unfold Start, GetState. run; end_run; unfold Errorf1 in *; intros Hnil;
    try discriminate Hnil; try congruence; subst; reflexivity.
Qed.

End StateFacts.

Section MoreGetIPsFacts.

Context {St : Type} (gw : Gateway St).
Variable net_ParseIP : string -> IP.

(** X13: the loop over the address blocks of a network panics exactly when
    one of the blocks is not a map with a string under "OS-EXT-IPS:type"
    and a string under "addr"; what the type string says plays no part in
    that, so a block flagged neither "floating" nor "fixed" does not make
    it panic. *)
Theorem range_addressSlice_panics_iff (blocks : list value) (ips : list IP) :
  range_addressSlice net_ParseIP blocks ips = Panics <->
  forallb well_formed_block blocks = false.
Proof.
  revert ips. induction blocks as [| b blocks IH]; intros ips; simpl.
  - split; discriminate.
  - destruct b as [| | | | | m]; simpl; try tauto.
    destruct (index m "OS-EXT-IPS:type") as [| | | ty | |]; simpl; try tauto.
    destruct (index m "addr") as [| | | addr | |]; simpl; try tauto.
    apply IH.
Qed.

Lemma range_addressSlice_app (l1 l2 : list value) (ips : list IP) :
  range_addressSlice net_ParseIP (l1 ++ l2) ips
  = outcome_bind (range_addressSlice net_ParseIP l1 ips)
      (fun ips' => range_addressSlice net_ParseIP l2 ips').
Proof.
  revert ips. induction l1 as [| b l1 IH]; intros ips; [reflexivity |].
  simpl. destruct (assert_map b) as [m |]; [| reflexivity]. simpl.
  destruct (assert_string (index m "OS-EXT-IPS:type")) as [ty |];
    [| reflexivity]. simpl.
  destruct (assert_string (index m "addr")) as [addr |]; [| reflexivity].
  simpl. apply IH.
Qed.

(** X14: among the addresses of a network the last one of a type wins: a
    block flagged "floating" that comes after the others sets position 0
    to its parsed address and leaves position 1 as the others left it, and
    a block flagged "fixed" does the same for position 1. *)
Theorem range_addressSlice_last_wins (blocks : list value)
    (m : gmap string value) (addr : string) (ips : list IP) (pub priv : IP) :
  range_addressSlice net_ParseIP blocks ips = Returns [pub; priv] ->
  index m "addr" = VString addr ->
  (index m "OS-EXT-IPS:type" = VString "floating" ->
   range_addressSlice net_ParseIP (blocks ++ [VMap m]) ips
   = Returns [net_ParseIP addr; priv]) /\
  (index m "OS-EXT-IPS:type" = VString "fixed" ->
   range_addressSlice net_ParseIP (blocks ++ [VMap m]) ips
   = Returns [pub; net_ParseIP addr]).
Proof.
  intros Hblocks Haddr.
  split; intros Hty; rewrite range_addressSlice_app, Hblocks; simpl;
    rewrite Hty, Haddr; reflexivity.
Qed.

Lemma range_Networks_lookup_failure (client : ServiceClient.t)
    (server : Server.t) (id msg : string) (ids : list string) :
  forall (ips : list IP) (w : World St),
    In (Ev (CallNetworksGet id) (Failed msg))
      (trace (range_Networks gw net_ParseIP client server ids ips) w) ->
    returned (range_Networks gw net_ParseIP client server ids ips) w
    = Returns (None, Some msg).
Proof.
  induction ids as [| id' ids IH]; intros ips w; unfold returned, trace;
    simpl; [tauto |].
  unfold bind, networks_Get, request.
  destruct (gw_networks_Get gw client id' (cloud w)) as [[network | e] s];
    simpl.
  - destruct (assert_slice _) as [addressSlice |]; simpl.
    + destruct (range_addressSlice _ _ _) as [ips' |]; simpl.
      * specialize (IH ips' (MkWorld (vm w) s)). unfold returned, trace in IH.
        destruct (range_Networks _ _ _ _ _ _ _) as [[r w'] t]. simpl in *.
        intros [H | H]; [discriminate H | auto].
      * intros [H | []]. discriminate H.
    + intros [H | []]. discriminate H.
  - intros [H | []]. now injection H as _ <-.
Qed.

(** X15: when the lookup of one of the networks fails, [GetIPs] returns a
    nil slice with that error: the addresses found on the networks before
    it are not returned. *)
Theorem GetIPs_lookup_failure (w : World St) (id msg : string) :
  In (Ev (CallNetworksGet id) (Failed msg)) (trace (GetIPs gw net_ParseIP) w) ->
  returned (GetIPs gw net_ParseIP) w = Returns (None, Some msg).
Proof.
  name_run (GetIPs gw net_ParseIP w). unfold GetIPs. run.
  all: try (end_run; intros Hin; hunt Hin; fail).
  match goal with
  | |- context [range_Networks gw net_ParseIP ?c ?srv ?ids ?ips ?w0] =>
      pose proof (range_Networks_lookup_failure c srv id msg ids ips w0)
        as Hloop;
      unfold returned, trace in Hloop;
      destruct (range_Networks gw net_ParseIP c srv ids ips w0)
        as [[? ?] ?]
  end.
  end_run. intros Hin. hunt Hin. auto.
Qed.

(** X16: for a descriptor that lists no network, [GetIPs] asks for no
    network and returns two nil addresses and a nil error. *)
Theorem GetIPs_without_networks (w : World St) (server : Server.t)
    (client : ServiceClient.t) (s1 s2 : St) :
  VM.Networks (vm w) = [] ->
  gw_getServer gw (vm w) (cloud w) = (Some server, None, s1) ->
  gw_getNetworkClient gw (vm w) s1 = (Some client, None, s2) ->
  GetIPs gw net_ParseIP w
  = (Returns (Some [[]; []], None), MkWorld (vm w) s2,
     [Ev (CallGetServer (VM.InstanceID (vm w))) Done;
      Ev CallGetNetworkClient Done]).
Proof.
  intros Hnone H1 H2.
  unfold GetIPs. run_unfold. simpl. rewrite H1. simpl. rewrite H2. simpl.
  rewrite Hnone. reflexivity.
Qed.

End MoreGetIPsFacts.

Section MoreMarshalJSONFacts.

Variable json_Marshal : value -> list Byte.byte * error.
Variable base64_EncodeToString : list Byte.byte -> string.

(** X17: for a descriptor with a floating IP record, [MarshalJSON] hands
    to the encoder the decoded document with one change: the "FloatingIP"
    entry, a map, has the identifier of the record under "id".  The other
    entries of that map and the other entries of the document are the
    decoded ones. *)
Theorem MarshalJSON_keeps_identifier (v : VM.t) (f : FloatingIP.t) :
  VM.FloatingIP v = Some f ->
  exists plain decoded doc fip,
    decoded_alias base64_EncodeToString v = VMap plain /\
    plain !! "FloatingIP" = Some (VMap decoded) /\
    MarshalJSON json_Marshal base64_EncodeToString v
    = Returns (json_Marshal (VMap doc)) /\
    doc !! "FloatingIP" = Some (VMap fip) /\
    fip !! "id" = Some (VString (FloatingIP.ID f)) /\
    (forall k, k <> "id" -> fip !! k = decoded !! k) /\
    (forall k, k <> "FloatingIP" -> doc !! k = plain !! k).
Proof.
  intros Hf. unfold MarshalJSON.
  destruct (decoded_alias_FloatingIP base64_EncodeToString v)
    as (m & Hm & Hidx).
  rewrite Hm. simpl. rewrite Hidx, Hf. simpl.
  rewrite Hf in Hidx. simpl in Hidx.
  eexists m, _, _, _. split; [reflexivity |].
  split.
  { revert Hidx. unfold index. destruct (m !! "FloatingIP"); simpl;
      [intros -> | discriminate]. reflexivity. }
  split; [reflexivity |]. split; [apply lookup_insert_eq |].
  split; [apply lookup_insert_eq |].
  split; intros k Hk; now apply lookup_insert_ne.
Qed.

(** X18: the document [MarshalJSON] hands to the encoder has one entry for
    each of the nineteen fields of [vmAlias], the password and the SSH
    credentials among them, and no entry for the compute handle. *)
Theorem MarshalJSON_document_entries (v : VM.t) (f : FloatingIP.t) :
  VM.FloatingIP v = Some f ->
  exists doc,
    MarshalJSON json_Marshal base64_EncodeToString v
    = Returns (json_Marshal (VMap doc)) /\
    (forall k, is_Some (doc !! k) <-> In k vmAlias_fields) /\
    doc !! "computeClient" = None /\
    size doc = 19.
Proof.
  intros Hf. unfold MarshalJSON.
  destruct (decoded_alias_FloatingIP base64_EncodeToString v)
    as (m & Hm & Hidx).
  rewrite Hm. simpl. rewrite Hidx, Hf. simpl.
  eexists. split; [reflexivity |].
  injection Hm as <-.
  split; [| split; now simplify_map_eq].
  intros k. unfold vmAlias_fields. simpl.
  rewrite !lookup_insert_is_Some, lookup_singleton_is_Some.
  intuition congruence.
Qed.

End MoreMarshalJSONFacts.

(** The events of a trace that are written out, before the trace of a
    teardown that ends it. *)
Ltac written_events l :=
  lazymatch l with
  | ?x :: ?r => let q := written_events r in constr:(x :: q)
  | _ => constr:(@nil Event)
  end.

Ltac in_events :=
  solve [simpl; repeat (first [left; reflexivity | right])].

Section MoreProvisionFacts.

Context {St : Type} (gw : Gateway St).
Variable lvm_VMRunning : string.

Lemma Destroy_frame (w : World St) :
  exists c vol,
    vm (world_after (Destroy gw) w)
    = VM.set_computeClient c (VM.set_Volume vol (vm w)).
Proof.
  name_run (Destroy gw w). unfold Destroy. run; end_run.
  all: match goal with
       | |- ex (fun _ => ex (fun _ => ?v = _)) =>
           exists (VM.computeClient v), (VM.Volume v)
       end; destruct (vm w); reflexivity.
Qed.

Lemma Destroy_keeps_ImageID (w : World St) :
  VM.ImageID (vm (world_after (Destroy gw) w)) = VM.ImageID (vm w).
Proof.
  destruct (Destroy_frame w) as (c & vol & ->). reflexivity.
Qed.

(** X19: when [Provision] returns nil, every call of the run succeeded and
    none of them deleted anything; the descriptor holds the identifier the
    provider gave for the created instance, the floating IP that was
    allocated from the pool of the descriptor and associated with that
    instance, and the image the instance was created from; the pool name
    was not empty and the instance answered the SSH probe. *)
Theorem Provision_nil (w : World St) :
  returned (Provision gw lvm_VMRunning) w = None ->
  exists opts sid fip,
    VM.InstanceID (vm (world_after (Provision gw lvm_VMRunning) w)) = sid /\
    VM.FloatingIP (vm (world_after (Provision gw lvm_VMRunning) w)) = Some fip /\
    VM.ImageID (vm (world_after (Provision gw lvm_VMRunning) w))
    = CreateOpts.ImageRef opts /\
    In (Ev (CallServersCreate opts) (Gave sid))
      (trace (Provision gw lvm_VMRunning) w) /\
    In (Ev (CallWaitUntil sid lvm_VMRunning) Done)
      (trace (Provision gw lvm_VMRunning) w) /\
    In (Ev (CallFloatingIPsCreate (VM.FloatingIPPool (vm w)))
           (Gave (FloatingIP.ID fip)))
      (trace (Provision gw lvm_VMRunning) w) /\
    In (Ev (CallAssociateInstance sid (FloatingIP.IP fip)) Done)
      (trace (Provision gw lvm_VMRunning) w) /\
    In (Ev (CallWaitUntilSSHReady sid) Done)
      (trace (Provision gw lvm_VMRunning) w) /\
    forallb succeeded (trace (Provision gw lvm_VMRunning) w) = true /\
    count_calls is_deletion (trace (Provision gw lvm_VMRunning) w) = 0 /\
    VM.FloatingIPPool (vm w) <> "".
Proof.
  name_run (Provision gw lvm_VMRunning w). unfold Provision.
  run; end_run; unfold Errorf1, Errorf2 in *; intros Hnil;
    try discriminate Hnil.
  all: match goal with
       | |- context [Ev (CallServersCreate ?o) (Gave (Server.ID ?srv))
                     :: Ev (CallWaitUntil _ _) Done
                     :: Ev (CallFloatingIPsCreate _) (Gave (FloatingIP.ID ?f))
                     :: _] =>
           exists o, (Server.ID srv), f
       end.
  all: split; [reflexivity |]. all: split; [reflexivity |].
  all: split; [reflexivity |].
  all: repeat (split; [in_events |]).
  all: split; [reflexivity |]. all: split; [reflexivity | assumption].
Qed.

(** X20: once the provider has acknowledged the creation of the instance,
    every error [Provision] returns comes out of the teardown: the run ends
    with [Destroy] on the descriptor that holds the identifier of the
    created instance, and the error is a cause followed by the error of
    [Destroy] when there is one. *)
Theorem Provision_failure_after_creation (w : World St)
    (opts : CreateOpts.t) (sid : string) :
  In (Ev (CallServersCreate opts) (Gave sid))
    (trace (Provision gw lvm_VMRunning) w) ->
  returned (Provision gw lvm_VMRunning) w <> None ->
  exists cause pre mid,
    trace (Provision gw lvm_VMRunning) w = pre ++ trace (Destroy gw) mid /\
    world_after (Provision gw lvm_VMRunning) w = world_after (Destroy gw) mid /\
    VM.InstanceID (vm mid) = sid /\
    returned (Provision gw lvm_VMRunning) w
    = with_teardown cause (returned (Destroy gw) mid).
Proof.
  name_run (Provision gw lvm_VMRunning w). unfold Provision.
  run; end_run; intros Hin Herr; try congruence; hunt Hin;
    try teardown_absurd Hin.
  all: injection Hin as _ <-.
  all: match goal with
       | HD : Destroy _ ?m = _
         |- ex (fun _ => ex (fun _ => ex (fun _ =>
              ?t = _ /\ _ /\ _ /\ ?R = _))) =>
           let pre := written_events t in
           let cause :=
             lazymatch R with
             | Errorf2 "" ?X " " _ => constr:(fmt_s X)
             | ?X => constr:(fmt_s X)
             end in
           exists cause, pre, m; rewrite HD
       end.
  all: repeat split.
Qed.

(** X21: when the provider has not acknowledged the creation of an
    instance, [Provision] returns an error without any teardown: the run
    deletes nothing, and the instance identifier and the floating IP
    record of the descriptor are what they were. *)
Theorem Provision_failure_before_creation (w : World St) :
  existsb created (trace (Provision gw lvm_VMRunning) w) = false ->
  returned (Provision gw lvm_VMRunning) w <> None /\
  count_calls is_deletion (trace (Provision gw lvm_VMRunning) w) = 0 /\
  VM.InstanceID (vm (world_after (Provision gw lvm_VMRunning) w))
  = VM.InstanceID (vm w) /\
  VM.FloatingIP (vm (world_after (Provision gw lvm_VMRunning) w))
  = VM.FloatingIP (vm w).
Proof.
  name_run (Provision gw lvm_VMRunning w). unfold Provision.
  run; end_run; unfold Errorf1, ErrNoFlavor in *; intros Hnone;
    try discriminate Hnone.
  all: repeat split; discriminate.
Qed.

(** X22: the pool name is looked at only after the instance has been
    created and has reached the running state: with an empty pool name
    [Provision] allocates no floating IP, tears the instance down and
    returns the error "empty floating IP pool", followed by the error of
    the teardown when there is one. *)
Theorem Provision_empty_pool (w : World St) (sid : string) :
  VM.FloatingIPPool (vm w) = "" ->
  In (Ev (CallWaitUntil sid lvm_VMRunning) Done)
    (trace (Provision gw lvm_VMRunning) w) ->
  exists pre opts mid,
    trace (Provision gw lvm_VMRunning) w =
      pre ++ [Ev (CallServersCreate opts) (Gave sid);
              Ev (CallWaitUntil sid lvm_VMRunning) Done]
          ++ trace (Destroy gw) mid /\
    VM.InstanceID (vm mid) = sid /\
    returned (Provision gw lvm_VMRunning) w
    = with_teardown "empty floating IP pool" (returned (Destroy gw) mid) /\
    count_calls is_CallFloatingIPsCreate
      (trace (Provision gw lvm_VMRunning) w) = 0.
Proof.
  intros Hpool. name_run (Provision gw lvm_VMRunning w). unfold Provision.
  run; end_run; intros Hin; try congruence; hunt Hin;
    try teardown_absurd Hin.
  all: injection Hin as <-.
  all: match goal with
       | HD : Destroy _ ?m = _
         |- ex (fun _ => ex (fun _ => ex (fun _ => ?t = _ /\ _))) =>
           let pre := events_before is_CallServersCreate t in
           match t with
           | context [Ev (CallServersCreate ?o) _] =>
               exists pre, o, m;
               pose proof (count_calls_teardown is_CallFloatingIPsCreate _
                             (fun c => ltac:(now destruct c))
                             (Destroy_trace_teardown gw m)) as Hcount;
               unfold trace in Hcount; rewrite HD in *
           end
       end.
  all: repeat split; exact Hcount.
Qed.

(** X23: the request that creates the instance carries the name, the
    networks, the user data and the admin password of the descriptor, the
    flavor identifier that the lookup of the flavor name gave, and exactly
    one security group: the one of the descriptor, or "default" when the
    descriptor has none.  Its image is the one the descriptor holds when
    the run is over, whether the run succeeds or not. *)
Theorem Provision_create_request (w : World St) (opts : CreateOpts.t)
    (r : Reply) :
  In (Ev (CallServersCreate opts) r) (trace (Provision gw lvm_VMRunning) w) ->
  CreateOpts.Name opts = VM.Name (vm w) /\
  CreateOpts.Networks opts = VM.Networks (vm w) /\
  CreateOpts.UserData opts = VM.UserData (vm w) /\
  CreateOpts.AdminPass opts = VM.AdminPassword (vm w) /\
  CreateOpts.SecurityGroups opts
  = [if decide (VM.SecurityGroup (vm w) = "") then "default"
     else VM.SecurityGroup (vm w)] /\
  In (Ev (CallFlavorsIDFromName (VM.FlavorName (vm w)))
         (Gave (CreateOpts.FlavorRef opts)))
    (trace (Provision gw lvm_VMRunning) w) /\
  CreateOpts.ImageRef opts
  = VM.ImageID (vm (world_after (Provision gw lvm_VMRunning) w)).
Proof.
  name_run (Provision gw lvm_VMRunning w). unfold Provision.
  run; end_run; intros Hin; hunt Hin; try teardown_absurd Hin.
  all: injection Hin as <- _.
  all: try match goal with
       | HD : Destroy _ ?m = _ |- _ =>
           pose proof (Destroy_keeps_ImageID m) as Himg;
           unfold world_after in Himg; rewrite HD in Himg; simpl in Himg;
           rewrite Himg
       end.
  all: simpl; repeat split; first [in_events | congruence].
Qed.

(** X24: a descriptor that names its image is provisioned without any
    image lookup or upload, and keeps that image identifier. *)
Theorem Provision_explicit_image (w : World St) :
  VM.ImageID (vm w) <> "" ->
  count_calls is_image_call (trace (Provision gw lvm_VMRunning) w) = 0 /\
  VM.ImageID (vm (world_after (Provision gw lvm_VMRunning) w))
  = VM.ImageID (vm w).
Proof.
  intros Himage. name_run (Provision gw lvm_VMRunning w). unfold Provision.
  run; end_run; try congruence.
  all: try match goal with
       | HD : Destroy _ ?m = _ |- _ =>
           pose proof (Destroy_keeps_ImageID m) as Himg;
           pose proof (count_calls_teardown is_image_call _
                         (fun c => ltac:(now destruct c))
                         (Destroy_trace_teardown gw m)) as Hcount;
           unfold world_after, trace in Himg, Hcount;
           rewrite HD in Himg, Hcount; simpl in Himg, Hcount
       end.
  all: split; [first [reflexivity | exact Hcount] |
               first [reflexivity | exact Himg]].
Qed.

Lemma Provision_nil_state (w : World St) :
  returned (Provision gw lvm_VMRunning) w = None ->
  exists opts fip,
    VM.FloatingIP (vm (world_after (Provision gw lvm_VMRunning) w)) = Some fip /\
    In (Ev (CallServersCreate opts)
           (Gave (VM.InstanceID
                    (vm (world_after (Provision gw lvm_VMRunning) w)))))
      (trace (Provision gw lvm_VMRunning) w) /\
    In (Ev (CallFloatingIPsCreate (VM.FloatingIPPool (vm w)))
           (Gave (FloatingIP.ID fip)))
      (trace (Provision gw lvm_VMRunning) w).
Proof.
  name_run (Provision gw lvm_VMRunning w). unfold Provision.
  run; end_run; unfold Errorf1, Errorf2 in *; intros Hnil;
    try discriminate Hnil.
  all: match goal with
       | |- context [Ev (CallServersCreate ?o) (Gave (Server.ID _)) = _] =>
           match goal with
           | |- context [Ev (CallFloatingIPsCreate _)
                            (Gave (FloatingIP.ID ?f)) = _] =>
               exists o, f
           end
       end.
  all: split; [reflexivity |]; split; in_events.
Qed.

Lemma Destroy_releases (w : World St) (fip : FloatingIP.t) :
  VM.InstanceID (vm w) <> "" ->
  VM.FloatingIP (vm w) = Some fip ->
  forallb succeeded (trace (Destroy gw) w) = true ->
  exists vol,
    trace (Destroy gw) w =
      [Ev CallGetComputeClient Done;
       Ev (CallDisassociateInstance (VM.InstanceID (vm w)) (FloatingIP.IP fip))
          Done;
       Ev (CallFloatingIPsDelete (FloatingIP.ID fip)) Done]
      ++ vol ++ [Ev (CallDeleteVM (VM.InstanceID (vm w))) Done] /\
    count_calls is_CallDeattachAndDeleteVolume vol = length vol.
Proof.
  intros Hid Hfip. name_run (Destroy gw w). unfold Destroy. run; end_run;
    intros Hs; try congruence; try discriminate Hs.
  - now exists [].
  - eexists [_]. split; reflexivity.
Qed.

(** X25: [Destroy] after a [Provision] that returned nil works on what
    that [Provision] acquired: when every call of the teardown succeeds, it
    disassociates and deletes the floating IP whose identifier the
    allocation gave and deletes the instance whose identifier the creation
    gave, in this order, with at most the volume helper in between. *)
Theorem Destroy_after_Provision (w : World St) :
  returned (Provision gw lvm_VMRunning) w = None ->
  VM.InstanceID (vm (world_after (Provision gw lvm_VMRunning) w)) <> "" ->
  forallb succeeded
    (trace (Destroy gw) (world_after (Provision gw lvm_VMRunning) w)) = true ->
  exists opts sid fip vol,
    In (Ev (CallServersCreate opts) (Gave sid))
      (trace (Provision gw lvm_VMRunning) w) /\
    In (Ev (CallFloatingIPsCreate (VM.FloatingIPPool (vm w)))
           (Gave (FloatingIP.ID fip)))
      (trace (Provision gw lvm_VMRunning) w) /\
    trace (Destroy gw) (world_after (Provision gw lvm_VMRunning) w) =
      [Ev CallGetComputeClient Done;
       Ev (CallDisassociateInstance sid (FloatingIP.IP fip)) Done;
       Ev (CallFloatingIPsDelete (FloatingIP.ID fip)) Done]
      ++ vol ++ [Ev (CallDeleteVM sid) Done] /\
    count_calls is_CallDeattachAndDeleteVolume vol = length vol.
Proof.
  intros Hnil Hid Hok.
  destruct (Provision_nil_state w Hnil) as (opts & fip & Hfip & Hc & Hf).
  destruct (Destroy_releases _ fip Hid Hfip Hok) as (vol & Ht & Hvol).
  exists opts,
    (VM.InstanceID (vm (world_after (Provision gw lvm_VMRunning) w))),
    fip, vol.
  repeat split; assumption.
Qed.

End MoreProvisionFacts.

(** ** The further properties at work on the example providers *)

(** [Destroy] of a provisioned instance, every call succeeding. *)
Lemma Destroy_nil_iff_all_succeeded_witness :
  VM.InstanceID (vm provisioned_world) <> "" /\
  (returned (Destroy provider_ok) provisioned_world = None <->
   forallb succeeded (trace (Destroy provider_ok) provisioned_world) = true).
Proof.
  split; [discriminate |].
  apply (Destroy_nil_iff_all_succeeded provider_ok provisioned_world).
  discriminate.
Defined.

(** [Destroy] when the provider does not authenticate the client. *)
Lemma Destroy_without_session_witness :
  In (Ev CallGetComputeClient (Failed "Failed to authenticate the client"))
    (trace (Destroy provider_no_session) provisioned_world) /\
  returned (Destroy provider_no_session) provisioned_world
  = Some ("compute client is not set for the VM, "
            +:+ "Failed to authenticate the client") /\
  trace (Destroy provider_no_session) provisioned_world
  = [Ev CallGetComputeClient (Failed "Failed to authenticate the client")] /\
  vm (world_after (Destroy provider_no_session) provisioned_world)
  = vm provisioned_world.
Proof.
  split; [in_trace |].
  apply (Destroy_without_session provider_no_session provisioned_world
           "Failed to authenticate the client").
  in_trace.
Defined.

(** [Destroy] twice on a provisioned instance. *)
Lemma Destroy_twice_deletes_again_witness :
  VM.InstanceID (vm provisioned_world) <> "" /\
  existsb session_failed
    (trace (Destroy provider_ok)
       (world_after (Destroy provider_ok) provisioned_world)) = false /\
  count_calls (is_CallDeleteVM "abc-123")
    (trace (Destroy provider_ok)
       (world_after (Destroy provider_ok) provisioned_world)) = 1.
Proof.
  split; [discriminate |]. split; [reflexivity |].
  destruct (Destroy_twice_deletes_again provider_ok provisioned_world)
    as [_ Hagain]; [discriminate |].
  apply Hagain. reflexivity.
Defined.

(** [Destroy] of a provisioned instance whose floating IP stays
    associated. *)
Lemma Destroy_ends_with_instance_deletion_witness :
  VM.InstanceID (vm provisioned_world) <> "" /\
  existsb session_failed
    (trace (Destroy provider_no_disassociation) provisioned_world) = false /\
  exists pre r,
    trace (Destroy provider_no_disassociation) provisioned_world
    = pre ++ [Ev (CallDeleteVM (VM.InstanceID (vm provisioned_world))) r] /\
    count_calls (is_CallDeleteVM (VM.InstanceID (vm provisioned_world))) pre = 0 /\
    (VM.FloatingIP (vm provisioned_world) = None ->
     count_calls is_floating_ip_call pre = 0) /\
    (Volume.ID (VM.Volume (vm provisioned_world)) = "" ->
     count_calls is_CallDeattachAndDeleteVolume pre = 0).
Proof.
  split; [discriminate |]. split; [reflexivity |].
  apply (Destroy_ends_with_instance_deletion provider_no_disassociation
           provisioned_world).
  - discriminate.
  - reflexivity.
Defined.

(** [Halt] and [Start] on a descriptor that was never provisioned. *)
Lemma Halt_Start_missing_identifier_witness :
  VM.InstanceID (vm fresh_world) = "" /\
  Halt provider_ok VMRunning VMHalted VMError VMUnknown ErrVMInfoFailed
    fresh_world = (ErrNoInstanceID, fresh_world, []) /\
  Start provider_ok VMRunning VMHalted VMError VMUnknown ErrVMInfoFailed
    fresh_world = (ErrNoInstanceID, fresh_world, []).
Proof.
  split; [reflexivity |].
  apply (Halt_Start_missing_identifier provider_ok VMRunning VMHalted VMError
           VMUnknown ErrVMInfoFailed fresh_world).
  reflexivity.
Defined.

(** [Halt] of a running instance that the provider refuses to stop. *)
Lemma Halt_stop_refused_witness :
  In (Ev (CallStop "abc-123") (Failed "instance is locked"))
    (trace (Halt provider_stop_refused VMRunning VMHalted VMError VMUnknown
              ErrVMInfoFailed) provisioned_world) /\
  "abc-123" = VM.InstanceID (vm provisioned_world) /\
  returned (Halt provider_stop_refused VMRunning VMHalted VMError VMUnknown
              ErrVMInfoFailed) provisioned_world
  = Some ("failed to stop the instance: " +:+ "instance is locked") /\
  count_calls is_CallWaitUntil
    (trace (Halt provider_stop_refused VMRunning VMHalted VMError VMUnknown
              ErrVMInfoFailed) provisioned_world) = 0.
Proof.
  split; [in_trace |].
  apply (Halt_stop_refused provider_stop_refused VMRunning VMHalted VMError
           VMUnknown ErrVMInfoFailed provisioned_world "abc-123"
           "instance is locked").
  in_trace.
Defined.

(** [Halt] of a running instance. *)
Lemma Halt_nil_path_witness :
  returned (Halt provider_running VMRunning VMHalted VMError VMUnknown
              ErrVMInfoFailed) provisioned_world = None /\
  trace (Halt provider_running VMRunning VMHalted VMError VMUnknown
           ErrVMInfoFailed) provisioned_world
  = [Ev CallGetComputeClient Done;
     Ev (CallGetServer (VM.InstanceID (vm provisioned_world))) Done;
     Ev (CallStop (VM.InstanceID (vm provisioned_world))) Done;
     Ev (CallWaitUntil (VM.InstanceID (vm provisioned_world)) VMHalted) Done].
Proof.
  split; [reflexivity |].
  apply (Halt_nil_path provider_running VMRunning VMHalted VMError VMUnknown
           ErrVMInfoFailed provisioned_world).
  reflexivity.
Defined.

(** [Start] of a running instance. *)
Lemma Start_not_halted_witness :
  VM.InstanceID (vm provisioned_world) <> "" /\
  getComputeClient provider_running provisioned_world
  = (Ok Fake.client, provisioned_session, [Ev CallGetComputeClient Done]) /\
  GetState provider_running VMRunning VMHalted VMError VMUnknown
    ErrVMInfoFailed provisioned_session
  = ((VMRunning, None), provisioned_session,
     [Ev (CallGetServer "abc-123") Done]) /\
  VMRunning <> VMHalted /\
  Start provider_running VMRunning VMHalted VMError VMUnknown ErrVMInfoFailed
    provisioned_world
  = (Some "VM is not in halted state", provisioned_session,
     [Ev CallGetComputeClient Done] ++ [Ev (CallGetServer "abc-123") Done]) /\
  count_calls is_CallStart
    ([Ev CallGetComputeClient Done] ++ [Ev (CallGetServer "abc-123") Done]) = 0.
Proof.
  split; [discriminate |]. split; [reflexivity |]. split; [reflexivity |].
  split; [discriminate |].
  apply (Start_not_halted provider_running VMRunning VMHalted VMError
           VMUnknown ErrVMInfoFailed provisioned_world provisioned_session
           provisioned_session Fake.client VMRunning).
  - discriminate.
  - reflexivity.
  - reflexivity.
  - discriminate.
Defined.

(** [Start] of a halted instance that the provider refuses to start. *)
Lemma Start_refused_witness :
  In (Ev (CallStart "abc-123") (Failed "instance is locked"))
    (trace (Start provider_start_refused VMRunning VMHalted VMError VMUnknown
              ErrVMInfoFailed) provisioned_world) /\
  "abc-123" = VM.InstanceID (vm provisioned_world) /\
  returned (Start provider_start_refused VMRunning VMHalted VMError VMUnknown
              ErrVMInfoFailed) provisioned_world
  = Some "failed to start the instance" /\
  count_calls is_CallWaitUntilSSHReady
    (trace (Start provider_start_refused VMRunning VMHalted VMError VMUnknown
              ErrVMInfoFailed) provisioned_world) = 0.
Proof.
  split; [in_trace |].
  apply (Start_refused provider_start_refused VMRunning VMHalted VMError
           VMUnknown ErrVMInfoFailed provisioned_world "abc-123"
           "instance is locked").
  in_trace.
Defined.

(** [Start] of a halted instance. *)
Lemma Start_nil_path_witness :
  returned (Start provider_shut_off VMRunning VMHalted VMError VMUnknown
              ErrVMInfoFailed) provisioned_world = None /\
  trace (Start provider_shut_off VMRunning VMHalted VMError VMUnknown
           ErrVMInfoFailed) provisioned_world
  = [Ev CallGetComputeClient Done;
     Ev (CallGetServer (VM.InstanceID (vm provisioned_world))) Done;
     Ev (CallStart (VM.InstanceID (vm provisioned_world))) Done;
     Ev (CallWaitUntilSSHReady (VM.InstanceID (vm provisioned_world))) Done].
Proof.
  split; [reflexivity |].
  apply (Start_nil_path provider_shut_off VMRunning VMHalted VMError VMUnknown
           ErrVMInfoFailed provisioned_world).
  reflexivity.
Defined.

(** A floating address after a fixed one, on one network. *)
Lemma range_addressSlice_last_wins_witness :
  range_addressSlice parse_bytes
    [VMap {[ "OS-EXT-IPS:type" := VString "floating";
             "addr" := VString "203.0.113.7" ]}] [[]; []]
  = Returns [parse_bytes "203.0.113.7"; []] /\
  index ({[ "OS-EXT-IPS:type" := VString "floating";
            "addr" := VString "203.0.113.9" ]} : gmap string value) "addr"
  = VString "203.0.113.9" /\
  range_addressSlice parse_bytes
    ([VMap {[ "OS-EXT-IPS:type" := VString "floating";
              "addr" := VString "203.0.113.7" ]}]
     ++ [VMap {[ "OS-EXT-IPS:type" := VString "floating";
                 "addr" := VString "203.0.113.9" ]}]) [[]; []]
  = Returns [parse_bytes "203.0.113.9"; []].
Proof.
  split; [reflexivity |]. split; [reflexivity |].
  destruct (range_addressSlice_last_wins parse_bytes
              [VMap {[ "OS-EXT-IPS:type" := VString "floating";
                       "addr" := VString "203.0.113.7" ]}]
              {[ "OS-EXT-IPS:type" := VString "floating";
                 "addr" := VString "203.0.113.9" ]}
              "203.0.113.9" [[]; []] (parse_bytes "203.0.113.7") [])
    as [Hfloating _].
  - reflexivity.
  - reflexivity.
  - apply Hfloating. reflexivity.
Defined.

(** [GetIPs] when the provider does not find the network. *)
Lemma GetIPs_lookup_failure_witness :
  In (Ev (CallNetworksGet "net-1") (Failed "network not found"))
    (trace (GetIPs provider_no_network_lookup parse_bytes) provisioned_world) /\
  returned (GetIPs provider_no_network_lookup parse_bytes) provisioned_world
  = Returns (None, Some "network not found").
Proof.
  split; [in_trace |].
  apply (GetIPs_lookup_failure provider_no_network_lookup parse_bytes
           provisioned_world "net-1" "network not found").
  in_trace.
Defined.

(** [GetIPs] of an instance whose descriptor lists no network. *)
Lemma GetIPs_without_networks_witness :
  VM.Networks (vm networkless_world) = [] /\
  gw_getServer provider_addressed (vm networkless_world)
    (cloud networkless_world) = (Some addressed, None, tt) /\
  gw_getNetworkClient provider_addressed (vm networkless_world) tt
  = (Some (ServiceClient.Build "network"), None, tt) /\
  GetIPs provider_addressed parse_bytes networkless_world
  = (Returns (Some [[]; []], None), MkWorld (vm networkless_world) tt,
     [Ev (CallGetServer (VM.InstanceID (vm networkless_world))) Done;
      Ev CallGetNetworkClient Done]).
Proof.
  split; [reflexivity |]. split; [reflexivity |]. split; [reflexivity |].
  apply (GetIPs_without_networks provider_addressed parse_bytes
           networkless_world addressed (ServiceClient.Build "network") tt tt).
  - reflexivity.
  - reflexivity.
  - reflexivity.
Defined.

(** [MarshalJSON] of the descriptor of a provisioned instance, with an
    encoder that shows the identifier it is given. *)
Lemma MarshalJSON_keeps_identifier_witness :
  VM.FloatingIP Fake.provisioned
  = Some (FloatingIP.Build "fip-1" "" "abc-123" "203.0.113.7" "public") /\
  MarshalJSON marshal_identifier (fun _ => "") Fake.provisioned
  = Returns (String.list_byte_of_string "fip-1", None).
Proof.
  split; [reflexivity |].
  destruct (MarshalJSON_keeps_identifier marshal_identifier (fun _ => "")
              Fake.provisioned
              (FloatingIP.Build "fip-1" "" "abc-123" "203.0.113.7" "public"))
    as (plain & decoded & doc & fip & _ & _ & Hdoc & Hfip & Hid & _).
  - reflexivity.
  - rewrite Hdoc. unfold marshal_identifier. rewrite Hfip, Hid. reflexivity.
Defined.

(** The same, with an encoder that shows how many entries it is given. *)
Lemma MarshalJSON_document_entries_witness :
  VM.FloatingIP Fake.provisioned
  = Some (FloatingIP.Build "fip-1" "" "abc-123" "203.0.113.7" "public") /\
  MarshalJSON marshal_entries (fun _ => "") Fake.provisioned
  = Returns (replicate 19 Byte.x00, None).
Proof.
  split; [reflexivity |].
  destruct (MarshalJSON_document_entries marshal_entries (fun _ => "")
              Fake.provisioned
              (FloatingIP.Build "fip-1" "" "abc-123" "203.0.113.7" "public"))
    as (doc & Hdoc & _ & _ & Hsize).
  - reflexivity.
  - rewrite Hdoc. unfold marshal_entries. rewrite Hsize. reflexivity.
Defined.

(** [Provision] against a provider that answers every call. *)
Lemma Provision_nil_witness :
  returned (Provision provider_ok VMRunning) fresh_world = None /\
  exists opts sid fip,
    VM.InstanceID (vm (world_after (Provision provider_ok VMRunning) fresh_world))
    = sid /\
    VM.FloatingIP (vm (world_after (Provision provider_ok VMRunning) fresh_world))
    = Some fip /\
    VM.ImageID (vm (world_after (Provision provider_ok VMRunning) fresh_world))
    = CreateOpts.ImageRef opts /\
    In (Ev (CallServersCreate opts) (Gave sid))
      (trace (Provision provider_ok VMRunning) fresh_world) /\
    In (Ev (CallWaitUntil sid VMRunning) Done)
      (trace (Provision provider_ok VMRunning) fresh_world) /\
    In (Ev (CallFloatingIPsCreate (VM.FloatingIPPool (vm fresh_world)))
           (Gave (FloatingIP.ID fip)))
      (trace (Provision provider_ok VMRunning) fresh_world) /\
    In (Ev (CallAssociateInstance sid (FloatingIP.IP fip)) Done)
      (trace (Provision provider_ok VMRunning) fresh_world) /\
    In (Ev (CallWaitUntilSSHReady sid) Done)
      (trace (Provision provider_ok VMRunning) fresh_world) /\
    forallb succeeded (trace (Provision provider_ok VMRunning) fresh_world)
    = true /\
    count_calls is_deletion (trace (Provision provider_ok VMRunning) fresh_world)
    = 0 /\
    VM.FloatingIPPool (vm fresh_world) <> "".
Proof.
  split; [reflexivity |].
  apply (Provision_nil provider_ok VMRunning fresh_world). reflexivity.
Defined.

(** [Provision] of an instance that never answers over SSH. *)
Lemma Provision_failure_after_creation_witness :
  In (Ev (CallServersCreate
            (CreateOpts.Build "vm-1" "flavor-1" "image-0" ["net-1"]
               ["default"] [] "")) (Gave "abc-123"))
    (trace (Provision provider_no_ssh VMRunning) fresh_world) /\
  returned (Provision provider_no_ssh VMRunning) fresh_world <> None /\
  exists cause pre mid,
    trace (Provision provider_no_ssh VMRunning) fresh_world
    = pre ++ trace (Destroy provider_no_ssh) mid /\
    world_after (Provision provider_no_ssh VMRunning) fresh_world
    = world_after (Destroy provider_no_ssh) mid /\
    VM.InstanceID (vm mid) = "abc-123" /\
    returned (Provision provider_no_ssh VMRunning) fresh_world
    = with_teardown cause (returned (Destroy provider_no_ssh) mid).
Proof.
  split; [in_trace |]. split; [discriminate |].
  apply (Provision_failure_after_creation provider_no_ssh VMRunning
           fresh_world
           (CreateOpts.Build "vm-1" "flavor-1" "image-0" ["net-1"]
              ["default"] [] "") "abc-123").
  - in_trace.
  - discriminate.
Defined.

(** [Provision] when the search for the image fails. *)
Lemma Provision_failure_before_creation_witness :
  existsb created (trace (Provision provider_no_image_search VMRunning)
                     imageless_world) = false /\
  returned (Provision provider_no_image_search VMRunning) imageless_world
  <> None /\
  count_calls is_deletion
    (trace (Provision provider_no_image_search VMRunning) imageless_world) = 0 /\
  VM.InstanceID
    (vm (world_after (Provision provider_no_image_search VMRunning)
           imageless_world))
  = VM.InstanceID (vm imageless_world) /\
  VM.FloatingIP
    (vm (world_after (Provision provider_no_image_search VMRunning)
           imageless_world))
  = VM.FloatingIP (vm imageless_world).
Proof.
  split; [reflexivity |].
  apply (Provision_failure_before_creation provider_no_image_search VMRunning
           imageless_world).
  reflexivity.
Defined.

(** [Provision] of a descriptor without a floating IP pool. *)
Lemma Provision_empty_pool_witness :
  VM.FloatingIPPool (vm poolless_world) = "" /\
  In (Ev (CallWaitUntil "abc-123" VMRunning) Done)
    (trace (Provision provider_ok VMRunning) poolless_world) /\
  exists pre opts mid,
    trace (Provision provider_ok VMRunning) poolless_world =
      pre ++ [Ev (CallServersCreate opts) (Gave "abc-123");
              Ev (CallWaitUntil "abc-123" VMRunning) Done]
          ++ trace (Destroy provider_ok) mid /\
    VM.InstanceID (vm mid) = "abc-123" /\
    returned (Provision provider_ok VMRunning) poolless_world
    = with_teardown "empty floating IP pool"
        (returned (Destroy provider_ok) mid) /\
    count_calls is_CallFloatingIPsCreate
      (trace (Provision provider_ok VMRunning) poolless_world) = 0.
Proof.
  split; [reflexivity |]. split; [in_trace |].
  apply (Provision_empty_pool provider_ok VMRunning poolless_world "abc-123").
  - reflexivity.
  - in_trace.
Defined.

(** The request [Provision] sends for the example descriptor. *)
Lemma Provision_create_request_witness :
  In (Ev (CallServersCreate
            (CreateOpts.Build "vm-1" "flavor-1" "image-0" ["net-1"]
               ["default"] [] "")) (Gave "abc-123"))
    (trace (Provision provider_ok VMRunning) fresh_world) /\
  CreateOpts.SecurityGroups
    (CreateOpts.Build "vm-1" "flavor-1" "image-0" ["net-1"] ["default"] [] "")
  = [if decide (VM.SecurityGroup (vm fresh_world) = "") then "default"
     else VM.SecurityGroup (vm fresh_world)] /\
  "image-0"
  = VM.ImageID (vm (world_after (Provision provider_ok VMRunning) fresh_world)).
Proof.
  split; [in_trace |].
  destruct (Provision_create_request provider_ok VMRunning fresh_world
              (CreateOpts.Build "vm-1" "flavor-1" "image-0" ["net-1"]
                 ["default"] [] "") (Gave "abc-123"))
    as (_ & _ & _ & _ & Hgroup & _ & Himage).
  - in_trace.
  - split; [exact Hgroup | exact Himage].
Defined.

(** [Provision] of a descriptor that names its image. *)
Lemma Provision_explicit_image_witness :
  VM.ImageID (vm fresh_world) <> "" /\
  count_calls is_image_call (trace (Provision provider_ok VMRunning) fresh_world)
  = 0 /\
  VM.ImageID (vm (world_after (Provision provider_ok VMRunning) fresh_world))
  = VM.ImageID (vm fresh_world).
Proof.
  split; [discriminate |].
  apply (Provision_explicit_image provider_ok VMRunning fresh_world).
  discriminate.
Defined.

(** [Provision], then [Destroy], against a provider that answers every
    call. *)
Lemma Destroy_after_Provision_witness :
  returned (Provision provider_ok VMRunning) fresh_world = None /\
  VM.InstanceID (vm (world_after (Provision provider_ok VMRunning) fresh_world))
  <> "" /\
  forallb succeeded
    (trace (Destroy provider_ok)
       (world_after (Provision provider_ok VMRunning) fresh_world)) = true /\
  exists opts sid fip vol,
    In (Ev (CallServersCreate opts) (Gave sid))
      (trace (Provision provider_ok VMRunning) fresh_world) /\
    In (Ev (CallFloatingIPsCreate (VM.FloatingIPPool (vm fresh_world)))
           (Gave (FloatingIP.ID fip)))
      (trace (Provision provider_ok VMRunning) fresh_world) /\
    trace (Destroy provider_ok)
      (world_after (Provision provider_ok VMRunning) fresh_world) =
      [Ev CallGetComputeClient Done;
       Ev (CallDisassociateInstance sid (FloatingIP.IP fip)) Done;
       Ev (CallFloatingIPsDelete (FloatingIP.ID fip)) Done]
      ++ vol ++ [Ev (CallDeleteVM sid) Done] /\
    count_calls is_CallDeattachAndDeleteVolume vol = length vol.
Proof.
  split; [reflexivity |]. split; [discriminate |]. split; [reflexivity |].
  apply (Destroy_after_Provision provider_ok VMRunning fresh_world).
  - reflexivity.
  - discriminate.
  - reflexivity.
Defined.
